(** * Rigorous benchmarking of SABER: the statistical engine

    A shallow embedding of [scripts/rigorous_benchmark.py] and of
    [scripts/rigorous_benchmark_demo.py], and the properties of the
    specification checked against it.

    Modelling conventions.
    - A Python [float] is a real number of [R]: the arithmetic is the exact
      one, without rounding, overflow, infinities or NaN.  Where rounding
      decides what the code returns, module [Binary64] has the outlier
      filter in IEEE 754 double precision.
    - A Python exception is a value of [exn]; a computation that may raise
      has type [result A], and statements are sequenced with [x <- e ;; k]
      in the order in which Python evaluates them.
    - [print] only writes to the terminal; it is left out, but for the rows
      of the results table, and the expressions it formats are kept where
      evaluating them could raise.
    - A Python [str] holding program output is the list of its code points;
      names of samples are Rocq strings. *)

From Stdlib Require Import Ascii String.
From Stdlib Require Import Reals Lra Lia List ZArith NArith Bool.
From Stdlib Require SpecFloat.
Import ListNotations.
Open Scope R_scope.

(** ** Exceptions and the error monad *)

Inductive exn : Type :=
| StatisticsError                      (* statistics.StatisticsError *)
| ZeroDivisionError                    (* float division by zero *)
| ValueError                           (* math.sqrt of a negative, float() of a bad literal *)
| IndexError                           (* list index out of range *)
| CalledProcessError (returncode : Z). (* subprocess.run(..., check=True) *)

Inductive result (A : Type) : Type :=
| Ok (a : A)
| Raise (e : exn).
Arguments Ok {A} a.
Arguments Raise {A} e.

Definition bind {A B : Type} (c : result A) (k : A -> result B) : result B :=
  match c with
  | Ok a => k a
  | Raise e => Raise e
  end.

Notation "x <- c ;; k" := (bind c (fun x => k))
  (at level 61, c at next level, right associativity).

(** ** Float operations that can raise *)

Definition Rleb (x y : R) : bool := if Rle_dec x y then true else false.
Definition Rltb (x y : R) : bool := if Rlt_dec x y then true else false.

(** [x / y] on floats. *)
Definition py_div (x y : R) : result R :=
  if Req_dec_T y 0 then Raise ZeroDivisionError else Ok (x / y).

Module math.
(** [math.sqrt]. *)
Definition sqrt (x : R) : result R :=
  if Rlt_dec x 0 then Raise ValueError else Ok (R_sqrt.sqrt x).
End math.

(** ** The [statistics] module of the Python library

    [statistics.mean] is the arithmetic mean and raises [StatisticsError]
    on empty data; [statistics.stdev] is the square root of the sample
    variance (divisor [n - 1]) and raises [StatisticsError] on fewer than
    two values.  The library computes both exactly and rounds the result
    to the nearest double; here they are the exact real quantities, see
    [Binary64.mean] and [Binary64.stdev] for the rounded ones. *)

Definition sum (l : list R) : R := fold_right Rplus 0 l.

Definition mean_of (l : list R) : R := sum l / INR (length l).

Definition sum_sq_dev (c : R) (l : list R) : R :=
  sum (map (fun x => (x - c) ^ 2) l).

Definition variance_of (l : list R) : R :=
  sum_sq_dev (mean_of l) l / (INR (length l) - 1).

Definition stdev_of (l : list R) : R := R_sqrt.sqrt (variance_of l).

Module statistics.
Definition mean (data : list R) : result R :=
  match data with
  | [] => Raise StatisticsError
  | _ :: _ => Ok (mean_of data)
  end.

Definition stdev (data : list R) : result R :=
  if (length data <? 2)%nat then Raise StatisticsError
  else Ok (stdev_of data).
End statistics.

(** ** [BenchmarkResult] (identical in both scripts) *)

Record BenchmarkResult : Type := mkBenchmarkResult {
  name : string;
  measurements : list R   (* microseconds *)
}.

Definition mean (self : BenchmarkResult) : result R :=
  statistics.mean (measurements self).

Definition stdev (self : BenchmarkResult) : result R :=
  statistics.stdev (measurements self).

(** [100.0 * self.stdev / self.mean if self.mean > 0 else 0.0]: the
    condition is evaluated first, [self.stdev] only when it holds. *)
Definition cv (self : BenchmarkResult) : result R :=
  m <- mean self ;;
  if Rltb 0 m then
    sd <- stdev self ;;
    m' <- mean self ;;
    py_div (100 * sd) m'
  else Ok 0.

Definition len (self : BenchmarkResult) : nat := length (measurements self).

Section ConfidenceInterval.

(** [scipy.stats.t.ppf q df]: the quantile function of Student's t. *)
Variable t_ppf : R -> R -> R.

(** rigorous_benchmark.py, Student's t. *)
Definition confidence_interval (self : BenchmarkResult) (confidence : R)
  : result (R * R) :=
  let n := len self in
  if (n <? 2)%nat then
    m1 <- mean self ;;
    m2 <- mean self ;;
    Ok (m1, m2)
  else
    let t_value := t_ppf ((1 + confidence) / 2) (INR n - 1) in
    sd <- stdev self ;;
    sq <- math.sqrt (INR n) ;;
    margin <- py_div (t_value * sd) sq ;;
    m1 <- mean self ;;
    m2 <- mean self ;;
    Ok (m1 - margin, m2 + margin).

End ConfidenceInterval.

Module Demo.
(** rigorous_benchmark_demo.py, normal approximation: [confidence] is
    accepted and not used. *)
Definition confidence_interval (self : BenchmarkResult) (confidence : R)
  : result (R * R) :=
  let n := len self in
  if (n <? 2)%nat then
    m1 <- mean self ;;
    m2 <- mean self ;;
    Ok (m1, m2)
  else
    let z := 1.96 in
    sd <- stdev self ;;
    sq <- math.sqrt (INR n) ;;
    margin <- py_div (z * sd) sq ;;
    m1 <- mean self ;;
    m2 <- mean self ;;
    Ok (m1 - margin, m2 + margin).
End Demo.

(** ** [remove_outliers] *)

Definition within (m sd threshold t : R) : bool :=
  Rleb (Rabs (t - m)) (threshold * sd).

Definition filtered_name (n : string) : string := (n ++ " (filtered)")%string.

(** The percentage of removed points; above 5.0 the method prints its
    warning. *)
Definition removed_pct (total kept : nat) : result R :=
  py_div (100 * INR (total - kept)) (INR total).

Definition remove_outliers (self : BenchmarkResult) (threshold : R)
  : result BenchmarkResult :=
  m <- mean self ;;
  sd <- stdev self ;;
  let filtered := filter (within m sd threshold) (measurements self) in
  pct <- removed_pct (len self) (length filtered) ;;
  let _warned := Rltb 5 pct in
  Ok (mkBenchmarkResult (filtered_name (name self)) filtered).

(** Whether the call prints its warning. *)
Definition remove_outliers_warns (self : BenchmarkResult) (threshold : R)
  : result bool :=
  m <- mean self ;;
  sd <- stdev self ;;
  let filtered := filter (within m sd threshold) (measurements self) in
  pct <- removed_pct (len self) (length filtered) ;;
  Ok (Rltb 5 pct).

(** *** Objects

    A [BenchmarkResult] is a Python object; the store holds the objects
    alive, a reference is an index in it.  Calling the method on the
    object at [self] assigns to no attribute and builds its list with a
    comprehension: the only effect is the allocation of the result. *)

Definition ref : Type := nat.
Definition Store : Type := list BenchmarkResult.

Definition alloc (st : Store) (o : BenchmarkResult) : ref * Store :=
  (length st, st ++ [o]).

(** [None] when [self] is no object of the store. *)
Definition call_remove_outliers (st : Store) (self : ref) (threshold : R)
  : option (result ref * Store) :=
  match nth_error st self with
  | None => None
  | Some o =>
      Some match remove_outliers o threshold with
           | Ok r => let (l, st') := alloc st r in (Ok l, st')
           | Raise e => (Raise e, st)
           end
  end.

(** ** The outlier filter in double precision

    Floats are the binary64 numbers of [SpecFloat] (53 bits of precision,
    exponents up to 1024) with its correctly rounded operations.
    [statistics.mean] and [statistics.stdev] follow CPython 3.11: the sum,
    the mean and the variance are exact fractions, the mean is rounded
    once and the deviation is the correctly rounded square root of the
    exact variance ([_float_sqrt_of_frac]). *)

Module Binary64.

Definition float : Type := SpecFloat.spec_float.

Definition prec : Z := 53.
Definition emax : Z := 1024.

Definition sub : float -> float -> float := SpecFloat.SFsub prec emax.
Definition mul : float -> float -> float := SpecFloat.SFmul prec emax.
Definition div : float -> float -> float := SpecFloat.SFdiv prec emax.
Definition abs : float -> float := SpecFloat.SFabs.
Definition leb : float -> float -> bool := SpecFloat.SFleb.
Definition ltb : float -> float -> bool := SpecFloat.SFltb.

(** [float(z)] for an integer. *)
Definition of_Z (z : Z) : float :=
  SpecFloat.binary_normalize prec emax z 0 false.


Definition is_finite (x : float) : bool :=
  match x with
  | SpecFloat.S754_zero _ | SpecFloat.S754_finite _ _ _ => true
  | _ => false
  end.

Definition is_zero (x : float) : bool :=
  match x with
  | SpecFloat.S754_zero _ => true
  | _ => false
  end.

(** A finite float is exactly [mantissa x * 2 ^ exponent x]. *)
Definition mantissa (x : float) : Z :=
  match x with
  | SpecFloat.S754_finite s m _ => SpecFloat.cond_Zopp s (Zpos m)
  | _ => 0%Z
  end.

Definition exponent (x : float) : Z :=
  match x with
  | SpecFloat.S754_finite _ _ e => e
  | _ => 0%Z
  end.

(** An exponent below those of all the data, and the data as integer
    multiples of [2 ^ E]. *)
Definition min_exponent (data : list float) : Z :=
  fold_right (fun x acc => Z.min (exponent x) acc) 0%Z data.

Definition scaled (E : Z) (x : float) : Z :=
  Z.shiftl (mantissa x) (exponent x - E).

Definition sum_Z (l : list Z) : Z := fold_right Z.add 0%Z l.

(** [p * 2^e / q] rounded to the nearest double, ties to even: the
    conversion of a fraction to [float]. *)
Definition round_quotient (p e : Z) (q : positive) : float :=
  match p with
  | Z0 => SpecFloat.S754_zero false
  | Zpos m =>
      let '(mz, ez, lz) :=
        SpecFloat.SFdiv_core_binary prec emax (Zpos m) e (Zpos q) 0 in
      SpecFloat.binary_round_aux prec emax false mz ez lz
  | Zneg m =>
      let '(mz, ez, lz) :=
        SpecFloat.SFdiv_core_binary prec emax (Zpos m) e (Zpos q) 0 in
      SpecFloat.binary_round_aux prec emax true mz ez lz
  end.

Definition mean_of (data : list float) : float :=
  let E := min_exponent data in
  round_quotient (sum_Z (map (scaled E) data)) E (Pos.of_nat (length data)).

(** The exact sample variance as a fraction in lowest terms. *)
Definition variance_frac (data : list float) : Z * Z :=
  let E := min_exponent data in
  let a := map (scaled E) data in
  let n := Z.of_nat (length data) in
  let N := (n * sum_Z (map (fun x => x * x) a) - sum_Z a * sum_Z a)%Z in
  let d := (n * (n - 1))%Z in
  let (p, q) :=
    if (0 <=? E)%Z then (Z.shiftl N (2 * E), d)
    else (N, Z.shiftl d (- 2 * E)) in
  let g := Z.gcd p q in
  ((p / g)%Z, (q / g)%Z).

Definition bit_length (n : Z) : Z :=
  if (n =? 0)%Z then 0%Z else (Z.log2 n + 1)%Z.

(** [_integer_sqrt_of_frac_rto]: the square root of [n / m] rounded to
    odd. *)
Definition integer_sqrt_of_frac_rto (n m : Z) : Z :=
  let a := Z.sqrt (n / m) in
  Z.lor a (if (a * a * m =? n)%Z then 0 else 1).

(** [_float_sqrt_of_frac]. *)
Definition float_sqrt_of_frac (n m : Z) : float :=
  let q := ((bit_length n - bit_length m - 109) / 2)%Z in
  if (0 <=? q)%Z then
    SpecFloat.binary_normalize prec emax
      (Z.shiftl (integer_sqrt_of_frac_rto n (Z.shiftl m (2 * q))) q) 0 false
  else
    SpecFloat.binary_normalize prec emax
      (integer_sqrt_of_frac_rto (Z.shiftl n (- 2 * q)) m) q false.

Definition stdev_of (data : list float) : float :=
  let (p, q) := variance_frac data in float_sqrt_of_frac p q.

Record BenchmarkResult : Type := mkBenchmarkResult {
  name : string;
  measurements : list float
}.

Definition mean (self : BenchmarkResult) : result float :=
  match measurements self with
  | [] => Raise StatisticsError
  | _ :: _ => Ok (mean_of (measurements self))
  end.

Definition stdev (self : BenchmarkResult) : result float :=
  if (length (measurements self) <? 2)%nat then Raise StatisticsError
  else Ok (stdev_of (measurements self)).

Definition py_div (x y : float) : result float :=
  if is_zero y then Raise ZeroDivisionError else Ok (div x y).

Definition within (m sd threshold t : float) : bool :=
  leb (abs (sub t m)) (mul threshold sd).

(** The samples this embedding covers: finite measurements whose
    deviation is in the range of the doubles. *)
Definition covered (self : BenchmarkResult) : bool :=
  forallb is_finite (measurements self)
  && is_finite (stdev_of (measurements self)).

(** [None] on a sample that is not covered. *)
Definition remove_outliers (self : BenchmarkResult) (threshold : float)
  : option (result BenchmarkResult) :=
  if covered self then
    Some (m <- mean self ;;
          sd <- stdev self ;;
          let filtered := filter (within m sd threshold) (measurements self) in
          let removed_count :=
            (Z.of_nat (length (measurements self))
             - Z.of_nat (length filtered))%Z in
          pct <- py_div (mul (of_Z 100) (of_Z removed_count))
                   (of_Z (Z.of_nat (length (measurements self)))) ;;
          let _warned := ltb (of_Z 5) pct in
          Ok (mkBenchmarkResult (filtered_name (name self)) filtered))
  else None.


End Binary64.

(** ** [compute_speedup] (identical in both scripts) *)

Definition compute_speedup (baseline optimized : BenchmarkResult)
  : result (R * R) :=
  mb <- mean baseline ;;
  mo <- mean optimized ;;
  s <- py_div mb mo ;;
  (* rel_err_base *)
  sdb <- stdev baseline ;;
  mb' <- mean baseline ;;
  sqb <- math.sqrt (INR (len baseline)) ;;
  rel_err_base <- py_div sdb (mb' * sqb) ;;
  (* rel_err_opt *)
  sdo <- stdev optimized ;;
  mo' <- mean optimized ;;
  sqo <- math.sqrt (INR (len optimized)) ;;
  rel_err_opt <- py_div sdo (mo' * sqo) ;;
  (* delta_s *)
  q <- math.sqrt (rel_err_base ^ 2 + rel_err_opt ^ 2) ;;
  Ok (s, s * q).

(** ** [validate_experiment]

    [results] is a dict, iterated in insertion order.  The demo script
    runs the same two loops inline in its [main]. *)

Definition Results : Type := list (string * BenchmarkResult).

(** Criterion 7.1: CV < 10%.  The property is read three times per item:
    for the status mark, for the printed value and for the test. *)
Fixpoint stability_loop (items : Results) (all_valid : bool) : result bool :=
  match items with
  | [] => Ok all_valid
  | (_, r) :: rest =>
      _status <- cv r ;;
      _shown <- cv r ;;
      c <- cv r ;;
      stability_loop rest (if Rleb 10 c then false else all_valid)
  end.

(** Criterion 7.2: relative error of the mean < 1%. *)
Definition relative_error (r : BenchmarkResult) : result R :=
  let n := len r in
  sd <- stdev r ;;
  sq <- math.sqrt (INR n) ;;
  m <- mean r ;;
  py_div (100 * 1.96 * sd) (sq * m).

Fixpoint precision_loop (items : Results) (all_valid : bool) : result bool :=
  match items with
  | [] => Ok all_valid
  | (_, r) :: rest =>
      e <- relative_error r ;;
      precision_loop rest (if Rleb 1 e then false else all_valid)
  end.

Definition validate_experiment (results : Results) : result bool :=
  all_valid <- stability_loop results true ;;
  precision_loop results all_valid.

(** ** Reports

    What [print_speedup_analysis], [print_results_table] and
    [export_to_csv] compute; the numbers are kept as they are before
    formatting. *)

Record SpeedupReport : Type := mkSpeedupReport {
  speedup : R;
  delta : R;
  speedup_ci_low : R;
  speedup_ci_high : R;
  improvement : R;      (* 100*(s-1), in percent *)
  t_stat : R;
  p_value : R;
  significant : bool    (* p_value < 0.05 *)
}.

Section Significance.

(** [scipy.stats.ttest_ind]: statistic and p-value. *)
Variable ttest_ind : list R -> list R -> R * R.

Definition t_test (sample1 sample2 : BenchmarkResult) : R * R :=
  ttest_ind (measurements sample1) (measurements sample2).

Definition print_speedup_analysis (baseline optimized : BenchmarkResult)
  : result SpeedupReport :=
  sd <- compute_speedup baseline optimized ;;
  let (s, delta_s) := sd in
  let ci_low := s - 1.96 * delta_s in
  let ci_high := s + 1.96 * delta_s in
  _ <- mean baseline ;;
  _ <- mean optimized ;;
  let (t, p) := t_test baseline optimized in
  Ok (mkSpeedupReport s delta_s ci_low ci_high (100 * (s - 1)) t p
        (Rltb p 0.05)).

End Significance.

(** One line of the table or of the CSV file. *)
Inductive Line : Type :=
| Header
| Row (key : string) (mean_us std_us ci_low_us ci_high_us cv_percent : R)
| CsvRow (key : string) (mean_us std_us ci_low_us ci_high_us cv_percent : R)
    (n : nat).

Section Reports.

(** The [confidence_interval] method of the script at hand. *)
Variable ci_method : BenchmarkResult -> R -> result (R * R).

(** The row of [print_results_table] for one item: the interval first,
    then the fields in the order of the f-string. *)
Definition table_row (key : string) (r : BenchmarkResult) : result Line :=
  ci <- ci_method r 0.95 ;;
  m <- mean r ;;
  sd <- stdev r ;;
  c <- cv r ;;
  Ok (Row key m sd (fst ci) (snd ci) c).

(** [printed] is what the terminal shows so far. *)
Fixpoint table_loop (items : Results) (printed : list Line)
  : list Line * result unit :=
  match items with
  | [] => (printed, Ok tt)
  | (key, r) :: rest =>
      match table_row key r with
      | Ok row => table_loop rest (printed ++ [row])
      | Raise e => (printed, Raise e)
      end
  end.

Definition print_results_table_with (results : Results)
  : list Line * result unit :=
  table_loop results [Header].

Definition csv_row (key : string) (r : BenchmarkResult) : result Line :=
  ci <- ci_method r 0.95 ;;
  m <- mean r ;;
  sd <- stdev r ;;
  c <- cv r ;;
  Ok (CsvRow key m sd (fst ci) (snd ci) c (len r)).

(** [file] is what has been written so far. *)
Fixpoint csv_loop (items : Results) (file : list Line)
  : list Line * result unit :=
  match items with
  | [] => (file, Ok tt)
  | (key, r) :: rest =>
      match csv_row key r with
      | Ok row => csv_loop rest (file ++ [row])
      | Raise e => (file, Raise e)
      end
  end.

Definition export_to_csv_with (results : Results) : list Line * result unit :=
  csv_loop results [Header].

End Reports.

(** rigorous_benchmark.py *)
Definition print_results_table (t_ppf : R -> R -> R) (results : Results)
  : list Line * result unit :=
  print_results_table_with (confidence_interval t_ppf) results.

Definition export_to_csv (t_ppf : R -> R -> R) (results : Results)
  : list Line * result unit :=
  export_to_csv_with (confidence_interval t_ppf) results.

(** rigorous_benchmark_demo.py *)
Definition demo_print_results_table (results : Results)
  : list Line * result unit :=
  print_results_table_with Demo.confidence_interval results.

(** ** The filtering loop of [main]

    [for name in list(results.keys()):
       results[name] = results[name].remove_outliers(threshold=3.0)]:
    every key keeps its place and gets the filtered sample. *)
Fixpoint remove_all_outliers (items : Results) (threshold : R)
  : result Results :=
  match items with
  | [] => Ok []
  | (key, r) :: rest =>
      r' <- remove_outliers r threshold ;;
      rest' <- remove_all_outliers rest threshold ;;
      Ok ((key, r') :: rest')
  end.

(** ** Text: Python [str] as a list of code points *)

Definition str : Type := list N.

(** An ASCII literal as a [str]. *)
Fixpoint of_ascii (s : string) : str :=
  match s with
  | EmptyString => []
  | String c s' => N_of_ascii c :: of_ascii s'
  end.

(** [str.isspace] on one character, the separators of [str.split()]. *)
Definition isspace (c : N) : bool :=
  (((9 <=? c) && (c <=? 13)) || ((28 <=? c) && (c <=? 32))
   || (c =? 133) || (c =? 160) || (c =? 5760)
   || ((8192 <=? c) && (c <=? 8202))
   || (c =? 8232) || (c =? 8233) || (c =? 8239) || (c =? 8287)
   || (c =? 12288))%N.

(** The line boundaries of [str.splitlines()] other than CR. *)
Definition is_linebreak (c : N) : bool :=
  ((c =? 10) || (c =? 11) || (c =? 12) || (c =? 28) || (c =? 29)
   || (c =? 30) || (c =? 133) || (c =? 8232) || (c =? 8233))%N.

Definition is_empty {A : Type} (l : list A) : bool :=
  match l with [] => true | _ :: _ => false end.

(** [cur] is the line being read, last character first. *)
Fixpoint splitlines_from (cur : str) (s : str) : list str :=
  match s with
  | [] => if is_empty cur then [] else [rev cur]
  | c :: s' =>
      if (c =? 13)%N then
        match s' with
        | d :: s'' =>
            if (d =? 10)%N then rev cur :: splitlines_from [] s''
            else rev cur :: splitlines_from [] s'
        | [] => rev cur :: splitlines_from [] s'
        end
      else if is_linebreak c then rev cur :: splitlines_from [] s'
      else splitlines_from (c :: cur) s'
  end.

Definition splitlines (s : str) : list str := splitlines_from [] s.

(** [str.split()] without argument: runs of whitespace separate the
    tokens, none of which is empty. *)
Fixpoint split_from (cur : str) (s : str) : list str :=
  match s with
  | [] => if is_empty cur then [] else [rev cur]
  | c :: s' =>
      if isspace c then
        if is_empty cur then split_from [] s'
        else rev cur :: split_from [] s'
      else split_from (c :: cur) s'
  end.

Definition split (s : str) : list str := split_from [] s.

Fixpoint startswith (s p : str) : bool :=
  match p, s with
  | [], _ => true
  | _ :: _, [] => false
  | a :: p', b :: s' => (a =? b)%N && startswith s' p'
  end.

(** [p in s] *)
Fixpoint contains (p s : str) : bool :=
  startswith s p ||
  match s with
  | [] => false
  | _ :: s' => contains p s'
  end.

Definition marker : str := of_ascii "KeyGen:".

(** ** [run_benchmark] *)

Record CompletedProcess : Type := mkCompletedProcess {
  returncode : Z;
  stdout : str
}.

(** The first line of the output that contains the marker: the line at
    which the scan of [result.stdout.splitlines()] stops. *)
Definition marker_line (out : str) : option str :=
  find (contains marker) (splitlines out).

Section Acquisition.

(** [float(s)]: [None] when the literal is rejected ([ValueError]). *)
Variable float_of_str : str -> option R.

(** The benchmarked program: what its [k]-th execution (from 0) exits
    with and prints.  A program that cannot be started is not modelled. *)
Variable execute : string -> nat -> CompletedProcess.

(** [subprocess.run([binary_path], ..., check=True)], as the [k]-th
    execution. *)
Definition subprocess_run (binary_path : string) (k : nat)
  : result CompletedProcess :=
  let p := execute binary_path k in
  if (returncode p =? 0)%Z then Ok p
  else Raise (CalledProcessError (returncode p)).

(** The body of [for line in result.stdout.splitlines()]: the
    measurement list after the scan. *)
Fixpoint scan_lines (lines : list str) (measurements : list R)
  : result (list R) :=
  match lines with
  | [] => Ok measurements
  | line :: rest =>
      if contains marker line then
        let parts := split line in
        match nth_error parts 1 with
        | None => Raise IndexError
        | Some time_str =>
            match float_of_str time_str with
            | None => Raise ValueError
            | Some time_us => Ok (measurements ++ [time_us])   (* break *)
            end
        end
      else scan_lines rest measurements
  end.

(** [for _ in range(warmup)], with [k] executions done before. *)
Fixpoint warmup_loop (binary_path : string) (todo : nat) (k : nat)
  : result nat :=
  match todo with
  | O => Ok k
  | S todo' =>
      _ <- subprocess_run binary_path k ;;
      warmup_loop binary_path todo' (S k)
  end.

(** [for i in range(iterations)]. *)
Fixpoint measure_loop (binary_path : string) (todo : nat) (k : nat)
  (measurements : list R) : result (list R) :=
  match todo with
  | O => Ok measurements
  | S todo' =>
      p <- subprocess_run binary_path k ;;
      measurements' <- scan_lines (splitlines (stdout p)) measurements ;;
      measure_loop binary_path todo' (S k) measurements'
  end.

Definition run_benchmark (binary_path : string) (iterations warmup : Z)
  : result (list R) :=
  k <- warmup_loop binary_path (Z.to_nat warmup) 0 ;;
  measure_loop binary_path (Z.to_nat iterations) k [].

(** What one captured output does to the measurement list. *)
Definition parse_output (out : str) (measurements : list R)
  : result (list R) :=
  match marker_line out with
  | None => Ok measurements
  | Some line =>
      match nth_error (split line) 1 with
      | None => Raise IndexError
      | Some time_str =>
          match float_of_str time_str with
          | None => Raise ValueError
          | Some time_us => Ok (measurements ++ [time_us])
          end
      end
  end.

(** The output has a marker line, and the second token of the first one
    is missing or is no float literal. *)
Definition malformed (out : str) : Prop :=
  exists line,
    marker_line out = Some line
    /\ match nth_error (split line) 1 with
       | None => True
       | Some time_str => float_of_str time_str = None
       end.

Definition parse_error (e : exn) : Prop := e = IndexError \/ e = ValueError.

End Acquisition.

(** A reader of plain decimal literals, [digits] or [digits.digits]: the
    part of [float] that the expected output [KeyGen: XX.XX] relies on.
    The concrete runs below apply it to such literals and to words that
    [float] rejects as well. *)
Definition digit_of (c : N) : option Z :=
  if ((48 <=? c) && (c <=? 57))%N then Some (Z.of_N c - 48)%Z else None.

Fixpoint digits_from (acc : Z) (s : str) : option Z :=
  match s with
  | [] => Some acc
  | c :: s' =>
      match digit_of c with
      | Some d => digits_from (10 * acc + d)%Z s'
      | None => None
      end
  end.

Definition digits (s : str) : option Z :=
  match s with
  | [] => None
  | _ :: _ => digits_from 0 s
  end.

Fixpoint break_at_dot (s : str) : str * option str :=
  match s with
  | [] => ([], None)
  | c :: s' =>
      if (c =? 46)%N then ([], Some s')
      else let (a, b) := break_at_dot s' in (c :: a, b)
  end.

Definition decimal_float (s : str) : option R :=
  match break_at_dot s with
  | (a, None) =>
      match digits a with
      | Some i => Some (IZR i)
      | None => None
      end
  | (a, Some b) =>
      match digits a, digits b with
      | Some i, Some f => Some (IZR i + IZR f / 10 ^ length b)
      | _, _ => None
      end
  end.

(** ** Concrete programs *)

Definition newline : str := [10%N].

(** A program whose second execution prints a marker line without a
    number. *)
Definition garbled_program (_ : string) (k : nat) : CompletedProcess :=
  match k with
  | O => mkCompletedProcess 0 (of_ascii "KeyGen: 12.5 us" ++ newline)
  | S _ => mkCompletedProcess 0 (of_ascii "KeyGen: n/a" ++ newline)
  end.

(** A program whose second execution prints no marker line. *)
Definition silent_program (_ : string) (k : nat) : CompletedProcess :=
  match k with
  | O => mkCompletedProcess 0 (of_ascii "KeyGen: 12.5 us" ++ newline)
  | S _ => mkCompletedProcess 0 (of_ascii "done" ++ newline)
  end.

(** A program that always prints its timing. *)
Definition steady_program (_ : string) (_ : nat) : CompletedProcess :=
  mkCompletedProcess 0 (of_ascii "KeyGen: 12.5 us" ++ newline).


(** A program that is chatty while warming up. *)
Definition chatty_program (_ : string) (k : nat) : CompletedProcess :=
  match k with
  | O => mkCompletedProcess 0 (of_ascii "KeyGen: warming up" ++ newline)
  | _ => mkCompletedProcess 0 (of_ascii "KeyGen: 12.5 us" ++ newline)
  end.

(** ** The quantities of the specification *)

(** [cv]: [100 * stdev / mean] when the mean is positive, else [0]. *)
Definition cv_of (l : list R) : R :=
  if Rlt_dec 0 (mean_of l) then 100 * stdev_of l / mean_of l else 0.

(** The 95%-level relative margin of the mean, in percent. *)
Definition precision_of (l : list R) : R :=
  100 * 1.96 * stdev_of l / (R_sqrt.sqrt (INR (length l)) * mean_of l).

(** [kept P l l']: [l'] is the subsequence of the elements of [l] that
    satisfy [P], in the order of [l]. *)
Inductive kept (P : R -> Prop) : list R -> list R -> Prop :=
| kept_nil : kept P [] []
| kept_take x l l' : P x -> kept P l l' -> kept P (x :: l) (x :: l')
| kept_drop x l l' : ~ P x -> kept P l l' -> kept P (x :: l) l'.

(** A sample the validity gate can judge, and its two criteria. *)
Definition sound_sample (r : BenchmarkResult) : Prop :=
  (2 <= len r)%nat /\ 0 < mean_of (measurements r).

Definition stable (r : BenchmarkResult) : Prop :=
  cv_of (measurements r) < 10.

Definition precise (r : BenchmarkResult) : Prop :=
  precision_of (measurements r) < 1.

(** * Properties *)

(** ** Evaluation lemmas *)

Lemma Rleb_true x y : Rleb x y = true <-> x <= y.
Proof. unfold Rleb. destruct (Rle_dec x y); split; intros; try discriminate; auto; lra. Qed.

Lemma Rleb_false x y : Rleb x y = false <-> y < x.
Proof. unfold Rleb. destruct (Rle_dec x y); split; intros; try discriminate; auto; lra. Qed.

Lemma Rltb_true x y : Rltb x y = true <-> x < y.
Proof. unfold Rltb. destruct (Rlt_dec x y); split; intros; try discriminate; auto; lra. Qed.

Lemma Rltb_false x y : Rltb x y = false <-> y <= x.
Proof. unfold Rltb. destruct (Rlt_dec x y); split; intros; try discriminate; auto; lra. Qed.

Lemma py_div_Ok x y : y <> 0 -> py_div x y = Ok (x / y).
Proof. intros H. unfold py_div. destruct (Req_dec_T y 0); [contradiction | reflexivity]. Qed.

Lemma py_div_zero x : py_div x 0 = Raise ZeroDivisionError.
Proof. unfold py_div. destruct (Req_dec_T 0 0); [reflexivity | contradiction]. Qed.

Lemma math_sqrt_Ok x : 0 <= x -> math.sqrt x = Ok (R_sqrt.sqrt x).
Proof. intros H. unfold math.sqrt. destruct (Rlt_dec x 0); [lra | reflexivity]. Qed.

Lemma mean_Ok s : (1 <= len s)%nat -> mean s = Ok (mean_of (measurements s)).
Proof.
  unfold mean, len, statistics.mean.
  destruct (measurements s); simpl; [lia | reflexivity].
Qed.

Lemma stdev_Ok s : (2 <= len s)%nat -> stdev s = Ok (stdev_of (measurements s)).
Proof.
  intros H. unfold stdev, statistics.stdev. fold (len s).
  destruct (Nat.ltb_spec (len s) 2); [lia | reflexivity].
Qed.

Lemma stdev_Raise s : (len s < 2)%nat -> stdev s = Raise StatisticsError.
Proof.
  intros H. unfold stdev, statistics.stdev. fold (len s).
  destruct (Nat.ltb_spec (len s) 2); [reflexivity | lia].
Qed.

Lemma sqrt_len_pos n : (1 <= n)%nat -> 0 < R_sqrt.sqrt (INR n).
Proof. intros H. apply sqrt_lt_R0. apply lt_0_INR. lia. Qed.

Lemma math_sqrt_len n : math.sqrt (INR n) = Ok (R_sqrt.sqrt (INR n)).
Proof. apply math_sqrt_Ok, pos_INR. Qed.

(** ** Descriptive statistics *)

(** C6: on a sample with fewer than two measurements [stdev] raises the
    insufficient-data error of the statistics library, [StatisticsError];
    it returns no value, and in particular no zero. *)
Theorem stdev_insufficient_data (s : BenchmarkResult) :
  (len s < 2)%nat ->
  stdev s = Raise StatisticsError /\ forall v, stdev s <> Ok v.
Proof.
  intros H. rewrite (stdev_Raise s H). split; [reflexivity | discriminate].
Qed.

Lemma stdev_insufficient_data_witness :
  stdev (mkBenchmarkResult "one" [67.74]) = Raise StatisticsError
  /\ forall v, stdev (mkBenchmarkResult "one" [67.74]) <> Ok v.
Proof. apply stdev_insufficient_data. unfold len. simpl. lia. Defined.

(** C8: on a sample with at least two measurements [cv] returns
    [100 * stdev / mean] when the mean is positive and [0], without
    raising, when the mean is zero or negative. *)
Theorem cv_value (s : BenchmarkResult) :
  (2 <= len s)%nat ->
  let ms := measurements s in
  (0 < mean_of ms -> cv s = Ok (100 * stdev_of ms / mean_of ms))
  /\ (mean_of ms <= 0 -> cv s = Ok 0).
Proof.
  intros H ms. unfold cv.
  rewrite (mean_Ok s) by lia. simpl. fold ms. split; intros Hm.
  - replace (Rltb 0 (mean_of ms)) with true by (symmetry; now apply Rltb_true).
    rewrite (stdev_Ok s H). simpl. apply py_div_Ok. lra.
  - replace (Rltb 0 (mean_of ms)) with false by (symmetry; now apply Rltb_false).
    reflexivity.
Qed.

Lemma cv_value_witness :
  let ms := [50; 51] in
  (0 < mean_of ms ->
   cv (mkBenchmarkResult "batched" ms) = Ok (100 * stdev_of ms / mean_of ms))
  /\ (mean_of ms <= 0 -> cv (mkBenchmarkResult "batched" ms) = Ok 0).
Proof.
  apply (cv_value (mkBenchmarkResult "batched" [50; 51])).
  unfold len. simpl. lia.
Defined.

Lemma cv_is_cv_of (s : BenchmarkResult) :
  (2 <= len s)%nat -> cv s = Ok (cv_of (measurements s)).
Proof.
  intros H. unfold cv, cv_of, Rltb.
  rewrite (mean_Ok s) by lia. simpl.
  destruct (Rlt_dec 0 (mean_of (measurements s))); [| reflexivity].
  rewrite (stdev_Ok s H). simpl. apply py_div_Ok. lra.
Qed.

(** ** Confidence interval *)

(** C7: on a sample with exactly one measurement, whatever the confidence
    level, both estimators return the interval [[mean, mean]], the mean
    being that measurement, and do not raise. *)
Theorem confidence_interval_single (t_ppf : R -> R -> R)
  (s : BenchmarkResult) (confidence : R) :
  len s = 1%nat ->
  let m := mean_of (measurements s) in
  mean s = Ok m
  /\ measurements s = [m]
  /\ confidence_interval t_ppf s confidence = Ok (m, m)
  /\ Demo.confidence_interval s confidence = Ok (m, m).
Proof.
  intros H m.
  assert (Hm : mean s = Ok m) by (apply mean_Ok; lia).
  unfold confidence_interval, Demo.confidence_interval.
  rewrite H, Hm. simpl. repeat split; trivial.
  unfold m, len in *. destruct (measurements s) as [|x [|y l]]; try discriminate.
  unfold mean_of, sum. simpl. f_equal. field.
Qed.

Lemma confidence_interval_single_witness :
  let s := mkBenchmarkResult "one" [67.74] in
  let m := mean_of (measurements s) in
  mean s = Ok m
  /\ measurements s = [m]
  /\ confidence_interval (fun _ _ => 1.96) s 0.99 = Ok (m, m)
  /\ Demo.confidence_interval s 0.99 = Ok (m, m).
Proof.
  apply (confidence_interval_single (fun _ _ => 1.96)
           (mkBenchmarkResult "one" [67.74]) 0.99).
  reflexivity.
Defined.

(** ** Speedup *)


Lemma compute_speedup_eval (b o : BenchmarkResult) :
  (2 <= len b)%nat -> (2 <= len o)%nat ->
  mean_of (measurements b) <> 0 -> mean_of (measurements o) <> 0 ->
  let mb := mean_of (measurements b) in
  let mo := mean_of (measurements o) in
  let rel_base := stdev_of (measurements b) / (mb * R_sqrt.sqrt (INR (len b))) in
  let rel_opt := stdev_of (measurements o) / (mo * R_sqrt.sqrt (INR (len o))) in
  compute_speedup b o
  = Ok (mb / mo, mb / mo * R_sqrt.sqrt (rel_base ^ 2 + rel_opt ^ 2)).
Proof.
  intros Hb Ho Hmb Hmo mb mo rel_base rel_opt.
  pose proof (sqrt_len_pos (len b) ltac:(lia)) as Hsb.
  pose proof (sqrt_len_pos (len o) ltac:(lia)) as Hso.
  unfold compute_speedup.
  rewrite (mean_Ok b), (mean_Ok o) by lia. simpl. fold mb mo.
  rewrite (py_div_Ok mb mo Hmo). simpl.
  rewrite (stdev_Ok b Hb), (stdev_Ok o Ho), !math_sqrt_len. simpl.
  rewrite py_div_Ok
    by (apply Rmult_integral_contrapositive_currified; [exact Hmb | lra]).
  simpl.
  rewrite py_div_Ok
    by (apply Rmult_integral_contrapositive_currified; [exact Hmo | lra]).
  simpl. fold rel_base rel_opt.
  rewrite math_sqrt_Ok
    by (pose proof (pow2_ge_0 rel_base); pose proof (pow2_ge_0 rel_opt); lra).
  reflexivity.
Qed.

(** C1: for two samples with at least two measurements each and positive
    means, [compute_speedup] returns the ratio of the means and that ratio
    times the quadrature of the two relative standard errors. *)
Theorem compute_speedup_value (baseline optimized : BenchmarkResult) :
  (2 <= len baseline)%nat -> (2 <= len optimized)%nat ->
  0 < mean_of (measurements baseline) ->
  0 < mean_of (measurements optimized) ->
  let mb := mean_of (measurements baseline) in
  let mo := mean_of (measurements optimized) in
  let ratio := mb / mo in
  let rel_base :=
    stdev_of (measurements baseline) / (mb * R_sqrt.sqrt (INR (len baseline))) in
  let rel_opt :=
    stdev_of (measurements optimized) / (mo * R_sqrt.sqrt (INR (len optimized))) in
  compute_speedup baseline optimized
  = Ok (ratio, ratio * R_sqrt.sqrt (rel_base ^ 2 + rel_opt ^ 2)).
Proof.
  intros Hb Ho Hmb Hmo. apply compute_speedup_eval; trivial; lra.
Qed.

Lemma compute_speedup_value_witness :
  let baseline := mkBenchmarkResult "sequential" [100; 100] in
  let optimized := mkBenchmarkResult "batched" [50; 50] in
  let mb := mean_of (measurements baseline) in
  let mo := mean_of (measurements optimized) in
  let ratio := mb / mo in
  let rel_base :=
    stdev_of (measurements baseline) / (mb * R_sqrt.sqrt (INR (len baseline))) in
  let rel_opt :=
    stdev_of (measurements optimized) / (mo * R_sqrt.sqrt (INR (len optimized))) in
  compute_speedup baseline optimized
  = Ok (ratio, ratio * R_sqrt.sqrt (rel_base ^ 2 + rel_opt ^ 2)).
Proof.
  apply (compute_speedup_value (mkBenchmarkResult "sequential" [100; 100])
           (mkBenchmarkResult "batched" [50; 50]));
    unfold len, mean_of, sum; simpl; try lia; lra.
Defined.

Lemma mean_of_nonneg_zero l :
  Forall (fun t => 0 <= t) l -> mean_of l <= 0 -> mean_of l = 0.
Proof.
  intros Hl Hm. destruct l as [|x l].
  - unfold mean_of, sum. simpl. lra.
  - assert (Hs : 0 <= sum (x :: l)).
    { clear Hm. induction Hl; unfold sum in *; simpl; lra. }
    assert (Hn : 0 < INR (length (x :: l))) by (apply lt_0_INR; simpl; lia).
    unfold mean_of in *. apply Rle_antisym; trivial.
    apply Rmult_le_pos; [trivial | left; now apply Rinv_0_lt_compat].
Qed.

(** C5, as the code has it: with a non-empty baseline, [compute_speedup]
    raises [ZeroDivisionError] and returns no ratio whenever the mean of
    the optimized sample is zero; for timings, which are not negative, that
    is whenever this mean is not positive.  The code has no test on the
    sign of the mean. *)
Theorem compute_speedup_zero_mean (baseline optimized : BenchmarkResult) :
  (1 <= len baseline)%nat -> (1 <= len optimized)%nat ->
  let mo := mean_of (measurements optimized) in
  mo = 0 \/ (Forall (fun t => 0 <= t) (measurements optimized) /\ mo <= 0) ->
  compute_speedup baseline optimized = Raise ZeroDivisionError
  /\ forall r, compute_speedup baseline optimized <> Ok r.
Proof.
  intros Hb Ho mo H.
  assert (Hz : mo = 0).
  { destruct H as [H | [Hl H]]; [trivial | now apply mean_of_nonneg_zero]. }
  assert (E : compute_speedup baseline optimized = Raise ZeroDivisionError).
  { unfold compute_speedup. rewrite (mean_Ok baseline Hb), (mean_Ok optimized Ho).
    simpl. fold mo. rewrite Hz, py_div_zero. reflexivity. }
  rewrite E. split; [reflexivity | discriminate].
Qed.

Lemma compute_speedup_zero_mean_witness :
  compute_speedup (mkBenchmarkResult "sequential" [100; 100])
    (mkBenchmarkResult "batched" [0; 0]) = Raise ZeroDivisionError
  /\ forall r,
      compute_speedup (mkBenchmarkResult "sequential" [100; 100])
        (mkBenchmarkResult "batched" [0; 0]) <> Ok r.
Proof.
  apply compute_speedup_zero_mean; unfold len; simpl; try lia.
  left. unfold mean_of, sum. simpl. lra.
Defined.

(** C5 as the specification states it fails on a sample of negative mean:
    the baseline [[2; 2]] against [[-1; -1]], of mean [-1], gives the ratio
    [-2] with uncertainty [0] and no error. *)
Lemma compute_speedup_negative_mean :
  let baseline := mkBenchmarkResult "sequential" [2; 2] in
  let optimized := mkBenchmarkResult "batched" [-1; -1] in
  mean optimized = Ok (-1)
  /\ -1 <= 0
  /\ compute_speedup baseline optimized = Ok (-2, 0)
  /\ compute_speedup baseline optimized <> Raise ZeroDivisionError.
Proof.
  intros baseline optimized.
  assert (Hmb : mean_of (measurements baseline) = 2)
    by (unfold mean_of, sum; simpl; lra).
  assert (Hmo : mean_of (measurements optimized) = -1)
    by (unfold mean_of, sum; simpl; lra).
  assert (Hsb : stdev_of (measurements baseline) = 0).
  { unfold stdev_of, variance_of. rewrite Hmb.
    unfold sum_sq_dev, sum. simpl.
    replace (_ / _) with 0 by lra. apply sqrt_0. }
  assert (Hso : stdev_of (measurements optimized) = 0).
  { unfold stdev_of, variance_of. rewrite Hmo.
    unfold sum_sq_dev, sum. simpl.
    replace (_ / _) with 0 by lra. apply sqrt_0. }
  assert (E : compute_speedup baseline optimized = Ok (-2, 0)).
  { assert (H2b : (2 <= len baseline)%nat) by (unfold len; simpl; lia).
    assert (H2o : (2 <= len optimized)%nat) by (unfold len; simpl; lia).
    rewrite (compute_speedup_eval baseline optimized H2b H2o)
      by (rewrite ?Hmb, ?Hmo; lra).
    cbv zeta. rewrite Hmb, Hmo, Hsb, Hso.
    replace (0 / (2 * R_sqrt.sqrt (INR (len baseline)))) with 0
      by (unfold Rdiv; now rewrite Rmult_0_l).
    replace (0 / (-1 * R_sqrt.sqrt (INR (len optimized)))) with 0
      by (unfold Rdiv; now rewrite Rmult_0_l).
    replace (0 ^ 2 + 0 ^ 2) with 0 by lra. rewrite sqrt_0.
    f_equal. f_equal; lra. }
  repeat split.
  - rewrite mean_Ok by (unfold len; simpl; lia). now rewrite Hmo.
  - lra.
  - exact E.
  - rewrite E. discriminate.
Qed.

(** ** Validity gate *)

Lemma relative_error_eval (r : BenchmarkResult) :
  sound_sample r -> relative_error r = Ok (precision_of (measurements r)).
Proof.
  intros [Hn Hm]. unfold relative_error.
  rewrite (stdev_Ok r Hn), math_sqrt_len, (mean_Ok r) by lia. simpl.
  apply py_div_Ok. apply Rmult_integral_contrapositive_currified.
  - apply Rgt_not_eq, sqrt_len_pos. lia.
  - lra.
Qed.

Lemma stability_loop_eval (items : Results) :
  Forall (fun item => sound_sample (snd item)) items ->
  forall all_valid, exists b,
    stability_loop items all_valid = Ok b
    /\ (b = true <->
        all_valid = true /\ Forall (fun item => stable (snd item)) items).
Proof.
  induction 1 as [|[n r] items [Hn Hm] _ IH]; intros all_valid; simpl.
  - exists all_valid. split; [reflexivity |]. split; [auto | tauto].
  - rewrite (cv_is_cv_of r Hn). simpl.
    destruct (IH (if Rleb 10 (cv_of (measurements r)) then false else all_valid))
      as (b & E & Hb).
    exists b. split; [exact E |]. rewrite Hb. clear E Hb.
    destruct (Rleb 10 (cv_of (measurements r))) eqn:Hc.
    + apply Rleb_true in Hc. split.
      * intros [? _]. discriminate.
      * intros [_ HF]. inversion HF as [|? ? Hs _]; subst.
        unfold stable in Hs. simpl in Hs. lra.
    + apply Rleb_false in Hc. split.
      * intros [? HF]. split; [trivial |]. constructor; trivial.
      * intros [? HF]. inversion HF; subst. auto.
Qed.

Lemma precision_loop_eval (items : Results) :
  Forall (fun item => sound_sample (snd item)) items ->
  forall all_valid, exists b,
    precision_loop items all_valid = Ok b
    /\ (b = true <->
        all_valid = true /\ Forall (fun item => precise (snd item)) items).
Proof.
  induction 1 as [|[n r] items Hr _ IH]; intros all_valid; simpl.
  - exists all_valid. split; [reflexivity |]. split; [auto | tauto].
  - simpl in Hr. rewrite (relative_error_eval r Hr). simpl.
    destruct (IH (if Rleb 1 (precision_of (measurements r)) then false
                  else all_valid)) as (b & E & Hb).
    exists b. split; [exact E |]. rewrite Hb. clear E Hb.
    destruct (Rleb 1 (precision_of (measurements r))) eqn:Hc.
    + apply Rleb_true in Hc. split.
      * intros [? _]. discriminate.
      * intros [_ HF]. inversion HF as [|? ? Hs _]; subst.
        unfold precise in Hs. simpl in Hs. lra.
    + apply Rleb_false in Hc. split.
      * intros [? HF]. split; [trivial |]. constructor; trivial.
      * intros [? HF]. inversion HF; subst. auto.
Qed.

(** C2: on a collection of samples with at least two measurements and a
    positive mean each, [validate_experiment] returns a boolean, and it is
    [true] if and only if every sample has [cv < 10.0] and
    [100 * 1.96 * stdev / (sqrt n * mean) < 1.0]. *)
Theorem validate_experiment_iff (results : Results) :
  Forall (fun item => sound_sample (snd item)) results ->
  exists b,
    validate_experiment results = Ok b
    /\ (b = true <->
        Forall (fun item => stable (snd item) /\ precise (snd item)) results).
Proof.
  intros H. unfold validate_experiment.
  destruct (stability_loop_eval results H true) as (b1 & E1 & H1).
  destruct (precision_loop_eval results H b1) as (b2 & E2 & H2).
  rewrite E1. simpl. exists b2. split; [exact E2 |].
  rewrite H2, H1, !Forall_forall. clear. split.
  - intros [[_ Hs] Hp] x Hx. auto.
  - intros Hsp. repeat split; intros x Hx; now apply Hsp.
Qed.

Lemma validate_experiment_iff_witness :
  let results :=
    [("A"%string, mkBenchmarkResult "A" [50; 50]);
     ("B"%string, mkBenchmarkResult "B" [100; 100; 100])] in
  exists b,
    validate_experiment results = Ok b
    /\ (b = true <->
        Forall (fun item => stable (snd item) /\ precise (snd item)) results).
Proof.
  apply validate_experiment_iff.
  repeat constructor; unfold len, mean_of, sum; simpl; try lia; lra.
Defined.

(** ** Outlier filter *)

Lemma removed_pct_Ok total kept_n :
  (1 <= total)%nat ->
  removed_pct total kept_n = Ok (100 * INR (total - kept_n) / INR total).
Proof.
  intros H. unfold removed_pct. apply py_div_Ok.
  apply Rgt_not_eq, lt_0_INR. lia.
Qed.

Lemma remove_outliers_eval (s : BenchmarkResult) (threshold : R) :
  (2 <= len s)%nat ->
  remove_outliers s threshold
  = Ok (mkBenchmarkResult (filtered_name (name s))
          (filter (within (mean_of (measurements s))
                     (stdev_of (measurements s)) threshold)
             (measurements s))).
Proof.
  intros H. unfold remove_outliers.
  rewrite (mean_Ok s), (stdev_Ok s H) by lia. simpl.
  rewrite removed_pct_Ok by lia. reflexivity.
Qed.

Lemma within_spec m sd threshold t :
  within m sd threshold t = true <-> Rabs (t - m) <= threshold * sd.
Proof. apply Rleb_true. Qed.

Lemma filter_kept (f : R -> bool) (P : R -> Prop) (l : list R) :
  (forall x, f x = true <-> P x) -> kept P l (filter f l).
Proof.
  intros HfP. induction l as [|x l IH]; simpl.
  - constructor.
  - destruct (f x) eqn:E.
    + apply kept_take; [now apply HfP | exact IH].
    + apply kept_drop; [| exact IH].
      intros HP. apply HfP in HP. congruence.
Qed.

Lemma kept_length (P : R -> Prop) (l l' : list R) :
  kept P l l' -> (length l' <= length l)%nat.
Proof. induction 1; simpl; lia. Qed.

Lemma kept_functional (P : R -> Prop) (l l1 l2 : list R) :
  kept P l l1 -> kept P l l2 -> l1 = l2.
Proof.
  intros H1. revert l2.
  induction H1; intros l2 H2; inversion H2; subst;
    try reflexivity; try contradiction; auto.
  f_equal. auto.
Qed.

Lemma kept_In (P : R -> Prop) (l l' : list R) :
  kept P l l' -> forall t, In t l' <-> In t l /\ P t.
Proof.
  induction 1 as [|x l l' Hx _ IH|x l l' Hx _ IH]; intros t; simpl.
  - tauto.
  - rewrite IH. split.
    + intros [-> | [? ?]]; auto.
    + intros [[-> | ?] ?]; auto.
  - rewrite IH. split.
    + intros [? ?]; auto.
    + intros [[-> | ?] ?]; [contradiction | auto].
Qed.

(** C3: on a sample with at least two measurements and for a threshold
    that is not negative, [remove_outliers] returns exactly the
    measurements [t] with [|t - mean| <= threshold * stdev], in their
    original order, [mean] and [stdev] being those of the input; the
    result has at most as many measurements as the input. *)
Theorem remove_outliers_subsequence (s : BenchmarkResult) (threshold : R) :
  (2 <= len s)%nat -> 0 <= threshold ->
  let m := mean_of (measurements s) in
  let sd := stdev_of (measurements s) in
  exists r,
    remove_outliers s threshold = Ok r
    /\ kept (fun t => Rabs (t - m) <= threshold * sd)
         (measurements s) (measurements r)
    /\ (len r <= len s)%nat.
Proof.
  intros H _ m sd. eexists. split; [apply (remove_outliers_eval s threshold H) |].
  assert (K : kept (fun t => Rabs (t - m) <= threshold * sd) (measurements s)
                (filter (within m sd threshold) (measurements s))).
  { apply filter_kept. intros x. apply within_spec. }
  split; [exact K |]. unfold len. simpl. exact (kept_length _ _ _ K).
Qed.

Lemma remove_outliers_subsequence_witness :
  let s := mkBenchmarkResult "A" [10; 11; 9; 50; 10] in
  let m := mean_of (measurements s) in
  let sd := stdev_of (measurements s) in
  exists r,
    remove_outliers s 3 = Ok r
    /\ kept (fun t => Rabs (t - m) <= 3 * sd)
         (measurements s) (measurements r)
    /\ (len r <= len s)%nat.
Proof.
  apply (remove_outliers_subsequence
           (mkBenchmarkResult "A" [10; 11; 9; 50; 10]) 3).
  - unfold len. simpl. lia.
  - lra.
Defined.

(** C9: on a sample with at least two measurements, whatever the
    threshold, [remove_outliers] returns a new object whose name is the
    name of the input followed by [" (filtered)"]; the input object, and
    every other object alive, keeps its name and its measurements. *)
Theorem remove_outliers_new_sample (st : Store) (self : ref)
  (o : BenchmarkResult) (threshold : R) :
  nth_error st self = Some o -> (2 <= len o)%nat ->
  exists (r : BenchmarkResult) (new : ref),
    remove_outliers o threshold = Ok r
    /\ call_remove_outliers st self threshold = Some (Ok new, st ++ [r])
    /\ name r = (name o ++ " (filtered)")%string
    /\ new <> self
    /\ nth_error (st ++ [r]) new = Some r
    /\ nth_error (st ++ [r]) self = Some o
    /\ forall l, (l < length st)%nat ->
         nth_error (st ++ [r]) l = nth_error st l.
Proof.
  intros Hself Hlen.
  pose proof (remove_outliers_eval o threshold Hlen) as E.
  assert (Hlt : (self < length st)%nat) by (apply nth_error_Some; congruence).
  eexists. exists (length st). split; [exact E |].
  unfold call_remove_outliers. rewrite Hself, E. simpl.
  repeat split.
  - lia.
  - rewrite nth_error_app2 by lia. now rewrite Nat.sub_diag.
  - now rewrite nth_error_app1.
  - intros l Hl. now rewrite nth_error_app1.
Qed.

Lemma remove_outliers_new_sample_witness :
  let o := mkBenchmarkResult "A" [10; 11; 9; 50; 10] in
  let st := [mkBenchmarkResult "B" [1; 2]; o] in
  exists (r : BenchmarkResult) (new : ref),
    remove_outliers o 3 = Ok r
    /\ call_remove_outliers st 1%nat 3 = Some (Ok new, st ++ [r])
    /\ name r = "A (filtered)"%string
    /\ new <> 1%nat
    /\ nth_error (st ++ [r]) new = Some r
    /\ nth_error (st ++ [r]) 1%nat = Some o
    /\ forall l, (l < length st)%nat ->
         nth_error (st ++ [r]) l = nth_error st l.
Proof.
  apply (remove_outliers_new_sample
           [mkBenchmarkResult "B" [1; 2];
            mkBenchmarkResult "A" [10; 11; 9; 50; 10]]
           1%nat (mkBenchmarkResult "A" [10; 11; 9; 50; 10]) 3).
  - reflexivity.
  - unfold len. simpl. lia.
Defined.






(** ** Acquisition *)

Section AcquisitionProperties.

Variable float_of_str : str -> option R.
Variable execute : string -> nat -> CompletedProcess.

Lemma scan_lines_find (lines : list str) (measurements : list R) :
  scan_lines float_of_str lines measurements
  = match find (contains marker) lines with
    | None => Ok measurements
    | Some line =>
        match nth_error (split line) 1 with
        | None => Raise IndexError
        | Some time_str =>
            match float_of_str time_str with
            | None => Raise ValueError
            | Some time_us => Ok (measurements ++ [time_us])
            end
        end
    end.
Proof.
  induction lines as [|line rest IH]; simpl; [reflexivity |].
  destruct (contains marker line); [reflexivity | exact IH].
Qed.

Lemma scan_lines_parse_output (out : str) (measurements : list R) :
  scan_lines float_of_str (splitlines out) measurements
  = parse_output float_of_str out measurements.
Proof. apply scan_lines_find. Qed.

Lemma parse_output_malformed (out : str) (measurements : list R) :
  malformed float_of_str out ->
  exists e, parse_output float_of_str out measurements = Raise e /\ parse_error e.
Proof.
  intros (line & Hl & H). unfold parse_output, parse_error. rewrite Hl.
  destruct (nth_error (split line) 1) as [tok|]; [rewrite H |]; eauto.
Qed.

Lemma parse_output_Raise (out : str) (measurements : list R) (e : exn) :
  parse_output float_of_str out measurements = Raise e -> malformed float_of_str out.
Proof.
  unfold parse_output, malformed.
  destruct (marker_line out) as [line|]; [| discriminate].
  intros H. exists line. split; [reflexivity |].
  destruct (nth_error (split line) 1) as [tok|]; [| exact I].
  destruct (float_of_str tok); [discriminate | reflexivity].
Qed.

Lemma parse_output_no_marker (out : str) (measurements : list R) :
  marker_line out = None -> parse_output float_of_str out measurements = Ok measurements.
Proof. intros H. unfold parse_output. now rewrite H. Qed.

Lemma subprocess_run_cases (path : string) (k : nat) :
  (returncode (execute path k) = 0%Z
   /\ subprocess_run execute path k = Ok (execute path k))
  \/ (returncode (execute path k) <> 0%Z
      /\ subprocess_run execute path k
         = Raise (CalledProcessError (returncode (execute path k)))).
Proof.
  unfold subprocess_run. destruct (Z.eqb_spec (returncode (execute path k)) 0); auto.
Qed.

Lemma warmup_loop_cases (path : string) (todo k : nat) :
  warmup_loop execute path todo k = Ok (k + todo)%nat
  \/ exists j, (j < todo)%nat
       /\ returncode (execute path (k + j)) <> 0%Z
       /\ warmup_loop execute path todo k
          = Raise (CalledProcessError (returncode (execute path (k + j)))).
Proof.
  revert k. induction todo as [|todo IH]; intros k; simpl.
  - left. f_equal. lia.
  - destruct (subprocess_run_cases path k) as [[_ E] | [Hne E]]; rewrite E; simpl.
    + destruct (IH (S k)) as [E' | (j & Hj & Hne & E')].
      * left. rewrite E'. f_equal. lia.
      * right. exists (S j). replace (k + S j)%nat with (S k + j)%nat by lia.
        split; [lia | auto].
    + right. exists 0%nat. rewrite Nat.add_0_r. split; [lia | auto].
Qed.

Lemma measure_loop_malformed (path : string) (todo : nat) :
  forall (k : nat) (acc : list R) (i : nat),
    (i < todo)%nat ->
    malformed float_of_str (stdout (execute path (k + i))) ->
    exists e,
      measure_loop float_of_str execute path todo k acc = Raise e
      /\ ((forall j, (j <= i)%nat -> returncode (execute path (k + j)) = 0%Z) ->
          (forall j, (j < i)%nat -> ~ malformed float_of_str (stdout (execute path (k + j)))) ->
          parse_error e).
Proof.
  induction todo as [|todo IH]; intros k acc i Hi Hbad; [lia |].
  simpl.
  destruct (subprocess_run_cases path k) as [[_ E] | [Hne E]]; rewrite E; simpl.
  2:{ eexists. split; [reflexivity |]. intros Hz _.
      specialize (Hz 0%nat ltac:(lia)). rewrite Nat.add_0_r in Hz. contradiction. }
  rewrite scan_lines_parse_output.
  destruct i as [|i].
  - rewrite Nat.add_0_r in Hbad.
    destruct (parse_output_malformed _ acc Hbad) as (e & Ee & He).
    rewrite Ee. simpl. eauto.
  - destruct (parse_output float_of_str (stdout (execute path k)) acc) as [acc'|e] eqn:Ep; simpl.
    + replace (k + S i)%nat with (S k + i)%nat in Hbad by lia.
      destruct (IH (S k) acc' i ltac:(lia) Hbad) as (e & Ee & He).
      exists e. split; [exact Ee |]. intros Hz Hgood. apply He.
      * intros j Hj. replace (S k + j)%nat with (k + S j)%nat by lia.
        apply Hz. lia.
      * intros j Hj. replace (S k + j)%nat with (k + S j)%nat by lia.
        apply Hgood. lia.
    + exists e. split; [reflexivity |]. intros _ Hgood. exfalso.
      apply (Hgood 0%nat ltac:(lia)). rewrite Nat.add_0_r.
      eapply parse_output_Raise; eauto.
Qed.

(** C4, as the code has it: if the output of some timed invocation has a
    marker line whose second token is missing or does not parse as a
    float, [run_benchmark] raises and returns no measurement list, partial
    or not; when every process has exited with status 0 and no earlier
    timed output was so malformed float_of_str, the exception is the parse failure
    itself ([ValueError], or [IndexError] for a missing token). *)
Theorem run_benchmark_malformed_marker (binary_path : string)
  (iterations warmup : Z) (i : nat) :
  (i < Z.to_nat iterations)%nat ->
  let timed j := execute binary_path (Z.to_nat warmup + j) in
  malformed float_of_str (stdout (timed i)) ->
  exists e,
    run_benchmark float_of_str execute binary_path iterations warmup = Raise e
    /\ (forall ms,
          run_benchmark float_of_str execute binary_path iterations warmup
          <> Ok ms)
    /\ ((forall k, (k <= Z.to_nat warmup + i)%nat ->
           returncode (execute binary_path k) = 0%Z) ->
        (forall j, (j < i)%nat -> ~ malformed float_of_str (stdout (timed j))) ->
        parse_error e).
Proof.
  intros Hi timed Hbad. unfold run_benchmark.
  destruct (warmup_loop_cases binary_path (Z.to_nat warmup) 0)
    as [E | (j & Hj & Hne & E)]; rewrite E; simpl.
  - destruct (measure_loop_malformed binary_path (Z.to_nat iterations)
                (Z.to_nat warmup) [] i Hi Hbad) as (e & Ee & He).
    exists e. rewrite Ee. repeat split; [discriminate |].
    intros Hz Hgood. apply He; [| exact Hgood].
    intros j Hj. apply Hz. lia.
  - eexists. repeat split; [discriminate |].
    intros Hz _. exfalso. apply Hne. apply Hz. lia.
Qed.

End AcquisitionProperties.

Lemma run_benchmark_malformed_marker_witness :
  exists e,
    run_benchmark decimal_float garbled_program "./bench" 2 0 = Raise e
    /\ (forall ms,
          run_benchmark decimal_float garbled_program "./bench" 2 0 <> Ok ms)
    /\ ((forall k, (k <= Z.to_nat 0 + 1)%nat ->
           returncode (garbled_program "./bench" k) = 0%Z) ->
        (forall j, (j < 1)%nat ->
           ~ malformed decimal_float
               (stdout (garbled_program "./bench" (Z.to_nat 0 + j)))) ->
        parse_error e).
Proof.
  apply (run_benchmark_malformed_marker decimal_float garbled_program
           "./bench" 2 0 1).
  - simpl. lia.
  - exists (of_ascii "KeyGen: n/a"). split; reflexivity.
Defined.

(** C4 as the specification states it fails on an output without marker
    line: the second of two timed invocations prints none, and the run
    returns the one measurement of the first instead of failing. *)
Lemma run_benchmark_missing_marker :
  marker_line (stdout (silent_program "./bench" 1)) = None
  /\ returncode (silent_program "./bench" 1) = 0%Z
  /\ run_benchmark decimal_float silent_program "./bench" 2 0 = Ok [12.5].
Proof.
  split; [reflexivity |]. split; [reflexivity |].
  unfold run_benchmark. simpl warmup_loop. cbv beta iota delta [bind].
  change (Z.to_nat 2) with 2%nat.
  cbn [measure_loop]. unfold subprocess_run. simpl returncode. simpl Z.eqb.
  cbv beta iota delta [bind]. rewrite scan_lines_parse_output.
  assert (E : parse_output decimal_float (stdout (silent_program "./bench" 0)) []
              = Ok [12 + 5 / 10 ^ 1]) by reflexivity.
  rewrite E, scan_lines_parse_output.
  rewrite (parse_output_no_marker decimal_float
             (stdout (silent_program "./bench" 1))) by reflexivity.
  do 2 f_equal. lra.
Qed.

(** * Further properties of the code *)

(** ** Samples too small, samples without spread *)

Lemma mean_Raise s : len s = 0%nat -> mean s = Raise StatisticsError.
Proof.
  unfold mean, len, statistics.mean.
  destruct (measurements s); [reflexivity | discriminate].
Qed.

Lemma confidence_interval_eval (t_ppf : R -> R -> R) (s : BenchmarkResult)
  (confidence : R) :
  (2 <= len s)%nat ->
  let m := mean_of (measurements s) in
  let margin :=
    t_ppf ((1 + confidence) / 2) (INR (len s) - 1)
    * stdev_of (measurements s) / R_sqrt.sqrt (INR (len s)) in
  confidence_interval t_ppf s confidence = Ok (m - margin, m + margin).
Proof.
  intros H m margin. unfold confidence_interval.
  destruct (Nat.ltb_spec (len s) 2); [lia |].
  rewrite (stdev_Ok s H), math_sqrt_len. simpl.
  rewrite py_div_Ok by (apply Rgt_not_eq, sqrt_len_pos; lia). simpl.
  rewrite (mean_Ok s) by lia. reflexivity.
Qed.

Lemma demo_confidence_interval_eval (s : BenchmarkResult) (confidence : R) :
  (2 <= len s)%nat ->
  let m := mean_of (measurements s) in
  let margin :=
    1.96 * stdev_of (measurements s) / R_sqrt.sqrt (INR (len s)) in
  Demo.confidence_interval s confidence = Ok (m - margin, m + margin).
Proof.
  intros H m margin. unfold Demo.confidence_interval.
  destruct (Nat.ltb_spec (len s) 2); [lia |].
  rewrite (stdev_Ok s H), math_sqrt_len. simpl.
  rewrite py_div_Ok by (apply Rgt_not_eq, sqrt_len_pos; lia). simpl.
  rewrite (mean_Ok s) by lia. reflexivity.
Qed.

Lemma stdev_of_nonneg l : 0 <= stdev_of l.
Proof. apply sqrt_pos. Qed.

(** X1: on a sample without measurements every statistic raises
    [StatisticsError]: the mean, the deviation, the coefficient of
    variation, both confidence intervals and the outlier filter. *)
Theorem empty_sample_raises (t_ppf : R -> R -> R) (s : BenchmarkResult)
  (confidence threshold : R) :
  len s = 0%nat ->
  mean s = Raise StatisticsError
  /\ stdev s = Raise StatisticsError
  /\ cv s = Raise StatisticsError
  /\ confidence_interval t_ppf s confidence = Raise StatisticsError
  /\ Demo.confidence_interval s confidence = Raise StatisticsError
  /\ remove_outliers s threshold = Raise StatisticsError.
Proof.
  intros H. pose proof (mean_Raise s H) as Hm.
  unfold cv, confidence_interval, Demo.confidence_interval, remove_outliers.
  rewrite H, Hm. simpl. repeat split; trivial.
  apply stdev_Raise. lia.
Qed.

Lemma empty_sample_raises_witness :
  let s := mkBenchmarkResult "none" [] in
  mean s = Raise StatisticsError
  /\ stdev s = Raise StatisticsError
  /\ cv s = Raise StatisticsError
  /\ confidence_interval (fun _ _ => 1.96) s 0.95 = Raise StatisticsError
  /\ Demo.confidence_interval s 0.95 = Raise StatisticsError
  /\ remove_outliers s 3 = Raise StatisticsError.
Proof.
  apply (empty_sample_raises (fun _ _ => 1.96) (mkBenchmarkResult "none" [])).
  reflexivity.
Defined.

(** X2: on a sample with one measurement [x], [cv] raises [StatisticsError]
    when [x] is positive and returns [0] otherwise: the deviation is only
    asked for in the first case.  The outlier filter always raises. *)
Theorem single_measurement_cv (s : BenchmarkResult) (x threshold : R) :
  measurements s = [x] ->
  (0 < x -> cv s = Raise StatisticsError)
  /\ (x <= 0 -> cv s = Ok 0)
  /\ remove_outliers s threshold = Raise StatisticsError.
Proof.
  intros H.
  assert (Hm : mean s = Ok x).
  { rewrite mean_Ok by (unfold len; rewrite H; simpl; lia).
    rewrite H. unfold mean_of, sum. simpl. f_equal. field. }
  assert (Hs : stdev s = Raise StatisticsError).
  { apply stdev_Raise. unfold len. rewrite H. simpl. lia. }
  unfold cv, remove_outliers. rewrite Hm, Hs. simpl. repeat split.
  - intros Hx. replace (Rltb 0 x) with true
      by (symmetry; now apply Rltb_true). reflexivity.
  - intros Hx. replace (Rltb 0 x) with false
      by (symmetry; now apply Rltb_false). reflexivity.
Qed.

Lemma single_measurement_cv_witness :
  let s := mkBenchmarkResult "one" [67.74] in
  (0 < 67.74 -> cv s = Raise StatisticsError)
  /\ (67.74 <= 0 -> cv s = Ok 0)
  /\ remove_outliers s 3 = Raise StatisticsError.
Proof.
  apply (single_measurement_cv (mkBenchmarkResult "one" [67.74]) 67.74 3).
  reflexivity.
Defined.

(** X3: with at least two measurements the demo script's interval is
    [(mean - margin, mean + margin)] with [margin = 1.96 * stdev / sqrt n],
    whatever the confidence level passed; the margin is not negative, so
    the interval contains the mean, and the call never raises. *)
Theorem demo_confidence_interval_normal (s : BenchmarkResult)
  (confidence : R) :
  (2 <= len s)%nat ->
  let m := mean_of (measurements s) in
  let margin :=
    1.96 * stdev_of (measurements s) / R_sqrt.sqrt (INR (len s)) in
  Demo.confidence_interval s confidence = Ok (m - margin, m + margin)
  /\ 0 <= margin
  /\ m - margin <= m <= m + margin.
Proof.
  intros H m margin.
  split; [apply (demo_confidence_interval_eval s confidence H) |].
  assert (Hm : 0 <= margin).
  { unfold margin. apply Rmult_le_pos.
    - pose proof (stdev_of_nonneg (measurements s)). lra.
    - left. apply Rinv_0_lt_compat, sqrt_len_pos. lia. }
  split; [exact Hm | lra].
Qed.

Lemma demo_confidence_interval_normal_witness :
  let s := mkBenchmarkResult "A" [10; 11; 9; 50; 10] in
  let m := mean_of (measurements s) in
  let margin :=
    1.96 * stdev_of (measurements s) / R_sqrt.sqrt (INR (len s)) in
  Demo.confidence_interval s 0.99 = Ok (m - margin, m + margin)
  /\ 0 <= margin
  /\ m - margin <= m <= m + margin.
Proof.
  apply (demo_confidence_interval_normal
           (mkBenchmarkResult "A" [10; 11; 9; 50; 10]) 0.99).
  unfold len. simpl. lia.
Defined.

(** X4: with at least two measurements the Student interval is
    [(mean - margin, mean + margin)] with
    [margin = t.ppf((1 + confidence) / 2, n - 1) * stdev / sqrt n] and the
    call never raises; the interval contains the mean as soon as the
    quantile returned by [t.ppf] is not negative. *)
Theorem confidence_interval_centred (t_ppf : R -> R -> R)
  (s : BenchmarkResult) (confidence : R) :
  (2 <= len s)%nat ->
  let m := mean_of (measurements s) in
  let t_value := t_ppf ((1 + confidence) / 2) (INR (len s) - 1) in
  let margin :=
    t_value * stdev_of (measurements s) / R_sqrt.sqrt (INR (len s)) in
  confidence_interval t_ppf s confidence = Ok (m - margin, m + margin)
  /\ (0 <= t_value -> 0 <= margin /\ m - margin <= m <= m + margin).
Proof.
  intros H m t_value margin.
  split; [apply (confidence_interval_eval t_ppf s confidence H) |].
  intros Ht.
  assert (Hm : 0 <= margin).
  { unfold margin. apply Rmult_le_pos.
    - apply Rmult_le_pos; [exact Ht | apply stdev_of_nonneg].
    - left. apply Rinv_0_lt_compat, sqrt_len_pos. lia. }
  split; [exact Hm | lra].
Qed.

Lemma confidence_interval_centred_witness :
  let s := mkBenchmarkResult "A" [10; 11; 9; 50; 10] in
  let m := mean_of (measurements s) in
  let t_value := 2.776 in
  let margin :=
    t_value * stdev_of (measurements s) / R_sqrt.sqrt (INR (len s)) in
  confidence_interval (fun _ _ => 2.776) s 0.95 = Ok (m - margin, m + margin)
  /\ (0 <= t_value -> 0 <= margin /\ m - margin <= m <= m + margin).
Proof.
  apply (confidence_interval_centred (fun _ _ => 2.776)
           (mkBenchmarkResult "A" [10; 11; 9; 50; 10]) 0.95).
  unfold len. simpl. lia.
Defined.

(** ** Sums *)

Lemma sum_cons x l : sum (x :: l) = x + sum l.
Proof. reflexivity. Qed.

Lemma sum_sq_dev_cons c x l :
  sum_sq_dev c (x :: l) = (x - c) ^ 2 + sum_sq_dev c l.
Proof. reflexivity. Qed.

Lemma INR_len_pos (l : list R) : l <> [] -> 0 < INR (length l).
Proof. intros H. apply lt_0_INR. destruct l; [congruence | simpl; lia]. Qed.

Lemma filter_id (f : R -> bool) (l : list R) :
  (forall t, In t l -> f t = true) -> filter f l = l.
Proof.
  induction l as [|x l IH]; intros H; simpl; [reflexivity |].
  rewrite (H x) by now left. f_equal. apply IH. intros t Ht. apply H. now right.
Qed.

(** ** Samples without spread *)

Lemma constant_sum (v : R) (l : list R) :
  Forall (fun t => t = v) l -> sum l = INR (length l) * v.
Proof.
  induction 1 as [|x l -> _ IH].
  - unfold sum. simpl. lra.
  - change (length (v :: l)) with (S (length l)).
    rewrite S_INR, sum_cons, IH. lra.
Qed.

Lemma constant_mean (v : R) (l : list R) :
  Forall (fun t => t = v) l -> l <> [] -> mean_of l = v.
Proof.
  intros H Hne. unfold mean_of. rewrite (constant_sum v l H).
  field. apply Rgt_not_eq, INR_len_pos, Hne.
Qed.

Lemma constant_sum_sq_dev (v : R) (l : list R) :
  Forall (fun t => t = v) l -> sum_sq_dev v l = 0.
Proof.
  induction 1 as [|x l -> _ IH].
  - reflexivity.
  - rewrite sum_sq_dev_cons, IH. ring.
Qed.

Lemma constant_stdev (v : R) (l : list R) :
  Forall (fun t => t = v) l -> l <> [] -> stdev_of l = 0.
Proof.
  intros H Hne. unfold stdev_of, variance_of.
  rewrite (constant_mean v l H Hne), (constant_sum_sq_dev v l H).
  unfold Rdiv. rewrite Rmult_0_l. apply sqrt_0.
Qed.

(** X5: on a sample of [n >= 2] identical values [v] the mean is [v], the
    deviation and the coefficient of variation are [0], both intervals
    are [[v, v]] at every confidence level, and the outlier filter keeps
    every measurement whatever the threshold, negative ones included. *)
Theorem constant_sample (t_ppf : R -> R -> R) (s : BenchmarkResult) (v : R) :
  (2 <= len s)%nat -> Forall (fun t => t = v) (measurements s) ->
  mean s = Ok v
  /\ stdev s = Ok 0
  /\ cv s = Ok 0
  /\ (forall confidence,
        confidence_interval t_ppf s confidence = Ok (v, v)
        /\ Demo.confidence_interval s confidence = Ok (v, v))
  /\ (forall threshold,
        remove_outliers s threshold
        = Ok (mkBenchmarkResult (name s ++ " (filtered)") (measurements s))).
Proof.
  intros Hn Hc.
  assert (Hne : measurements s <> []).
  { unfold len in Hn. destruct (measurements s); [simpl in Hn; lia | discriminate]. }
  pose proof (constant_mean v _ Hc Hne) as Hm.
  pose proof (constant_stdev v _ Hc Hne) as Hs.
  split; [rewrite mean_Ok by lia; now rewrite Hm |].
  split; [rewrite stdev_Ok by lia; now rewrite Hs |].
  split.
  { rewrite cv_is_cv_of by exact Hn. unfold cv_of. rewrite Hm, Hs.
    destruct (Rlt_dec 0 v); [| reflexivity].
    f_equal. unfold Rdiv. ring. }
  split.
  - intros confidence.
    rewrite confidence_interval_eval, demo_confidence_interval_eval by exact Hn.
    cbv zeta. rewrite Hm, Hs. unfold Rdiv. rewrite !Rmult_0_r, !Rmult_0_l.
    rewrite Rminus_0_r, Rplus_0_r. split; reflexivity.
  - intros threshold. rewrite remove_outliers_eval by exact Hn.
    rewrite Hm, Hs. rewrite filter_id; [reflexivity |].
    intros t Ht. apply within_spec.
    rewrite Forall_forall in Hc. rewrite (Hc t Ht).
    rewrite Rminus_diag, Rabs_R0. lra.
Qed.

Lemma constant_sample_witness :
  let s := mkBenchmarkResult "flat" [50; 50; 50] in
  mean s = Ok 50
  /\ stdev s = Ok 0
  /\ cv s = Ok 0
  /\ (forall confidence,
        confidence_interval (fun _ _ => 4.303) s confidence = Ok (50, 50)
        /\ Demo.confidence_interval s confidence = Ok (50, 50))
  /\ (forall threshold,
        remove_outliers s threshold
        = Ok (mkBenchmarkResult (name s ++ " (filtered)") (measurements s))).
Proof.
  apply (constant_sample (fun _ _ => 4.303)
           (mkBenchmarkResult "flat" [50; 50; 50]) 50).
  - unfold len. simpl. lia.
  - repeat constructor.
Defined.

(** ** The warning of the outlier filter *)

Lemma remove_outliers_warns_eval (s : BenchmarkResult) (threshold : R) :
  (2 <= len s)%nat ->
  remove_outliers_warns s threshold
  = Ok (Rltb 5
          (100 * INR (len s
                      - length (filter (within (mean_of (measurements s))
                                          (stdev_of (measurements s)) threshold)
                                  (measurements s)))
           / INR (len s))).
Proof.
  intros H. unfold remove_outliers_warns.
  rewrite (mean_Ok s), (stdev_Ok s H) by lia. simpl.
  rewrite removed_pct_Ok by lia. reflexivity.
Qed.

(** X10: the warning of [remove_outliers] is printed exactly when more
    than one measurement in twenty was removed. *)
Theorem remove_outliers_warning (s : BenchmarkResult) (threshold : R) :
  (2 <= len s)%nat ->
  exists r b,
    remove_outliers s threshold = Ok r
    /\ remove_outliers_warns s threshold = Ok b
    /\ (b = true <-> (len s < 20 * (len s - len r))%nat).
Proof.
  intros Hn. do 2 eexists.
  split; [apply (remove_outliers_eval s threshold Hn) |].
  split; [apply (remove_outliers_warns_eval s threshold Hn) |].
  unfold len at 3 5. simpl.
  set (k := (len s - length (filter _ (measurements s)))%nat).
  assert (Hnp : 0 < INR (len s)) by (apply lt_0_INR; lia).
  assert (Hiff : 5 < 100 * INR k / INR (len s) <-> (len s < 20 * k)%nat).
  { split; intros H.
    - apply INR_lt. rewrite mult_INR.
      replace (INR 20) with 20 by (simpl; lra).
      apply (Rmult_lt_compat_r (INR (len s))) in H; [| exact Hnp].
      unfold Rdiv in H. rewrite Rmult_assoc, Rinv_l in H by lra. lra.
    - apply lt_INR in H. rewrite mult_INR in H.
      replace (INR 20) with 20 in H by (simpl; lra).
      apply (Rmult_lt_reg_r (INR (len s))); [exact Hnp |].
      unfold Rdiv. rewrite Rmult_assoc, Rinv_l by lra. lra. }
  rewrite Rltb_true. exact Hiff.
Qed.

Lemma remove_outliers_warning_witness :
  let s := mkBenchmarkResult "A" [10; 11; 9; 50; 10] in
  exists r b,
    remove_outliers s 5 = Ok r
    /\ remove_outliers_warns s 5 = Ok b
    /\ (b = true <-> (len s < 20 * (len s - len r))%nat).
Proof.
  apply (remove_outliers_warning (mkBenchmarkResult "A" [10; 11; 9; 50; 10]) 5).
  unfold len. simpl. lia.
Defined.

(** ** More on the speedup *)

(** X11: for positive means and at least two measurements on each side, the
    report of [print_speedup_analysis] has a positive speedup, an
    uncertainty that is not negative and an interval
    [s -/+ 1.96 * delta] that contains the speedup; the improvement it
    prints is positive exactly when the optimized mean is the smaller. *)
Theorem print_speedup_analysis_report (ttest_ind : list R -> list R -> R * R)
  (baseline optimized : BenchmarkResult) :
  (2 <= len baseline)%nat -> (2 <= len optimized)%nat ->
  0 < mean_of (measurements baseline) ->
  0 < mean_of (measurements optimized) ->
  exists rep,
    print_speedup_analysis ttest_ind baseline optimized = Ok rep
    /\ compute_speedup baseline optimized = Ok (speedup rep, delta rep)
    /\ 0 < speedup rep
    /\ 0 <= delta rep
    /\ speedup_ci_low rep <= speedup rep <= speedup_ci_high rep
    /\ (0 < improvement rep <->
        mean_of (measurements optimized) < mean_of (measurements baseline)).
Proof.
  intros Hb Ho Hmb Hmo.
  pose proof (compute_speedup_eval baseline optimized Hb Ho
                ltac:(lra) ltac:(lra)) as E. cbv zeta in E.
  unfold print_speedup_analysis. rewrite E. simpl.
  rewrite (mean_Ok baseline), (mean_Ok optimized) by lia. simpl.
  unfold t_test.
  destruct (ttest_ind (measurements baseline) (measurements optimized))
    as [t p].
  eexists. split; [reflexivity |]. simpl.
  set (mb := mean_of (measurements baseline)) in *.
  set (mo := mean_of (measurements optimized)) in *.
  match goal with |- context [R_sqrt.sqrt ?x] =>
    pose proof (sqrt_pos x) as Hq; set (q := R_sqrt.sqrt x) in * end.
  assert (Hs : 0 < mb / mo) by (apply Rdiv_lt_0_compat; trivial).
  assert (Hd : 0 <= mb / mo * q) by (apply Rmult_le_pos; lra).
  split; [reflexivity |]. split; [exact Hs |]. split; [exact Hd |].
  split; [lra |].
  split; intros H.
  - assert (1 < mb / mo) by lra.
    apply (Rmult_lt_compat_r mo) in H0; [| exact Hmo].
    unfold Rdiv in H0. rewrite Rmult_assoc, Rinv_l in H0 by lra. lra.
  - assert (1 < mb / mo).
    { apply (Rmult_lt_reg_r mo); [exact Hmo |].
      unfold Rdiv. rewrite Rmult_assoc, Rinv_l by lra. lra. }
    lra.
Qed.

Lemma print_speedup_analysis_report_witness :
  let baseline := mkBenchmarkResult "sequential" [100; 102] in
  let optimized := mkBenchmarkResult "batched" [50; 52] in
  exists rep,
    print_speedup_analysis (fun _ _ => (30, 0.001)) baseline optimized = Ok rep
    /\ compute_speedup baseline optimized = Ok (speedup rep, delta rep)
    /\ 0 < speedup rep
    /\ 0 <= delta rep
    /\ speedup_ci_low rep <= speedup rep <= speedup_ci_high rep
    /\ (0 < improvement rep <->
        mean_of (measurements optimized) < mean_of (measurements baseline)).
Proof.
  apply (print_speedup_analysis_report (fun _ _ => (30, 0.001))
           (mkBenchmarkResult "sequential" [100; 102])
           (mkBenchmarkResult "batched" [50; 52]));
    unfold len, mean_of, sum; simpl; try lia; lra.
Defined.

(** X12: a baseline whose mean is zero makes [compute_speedup] raise
    [ZeroDivisionError], although the ratio itself, [0], is defined: the
    relative error of the baseline divides by its mean. *)
Theorem compute_speedup_zero_baseline (baseline optimized : BenchmarkResult) :
  (2 <= len baseline)%nat -> (1 <= len optimized)%nat ->
  mean_of (measurements baseline) = 0 ->
  mean_of (measurements optimized) <> 0 ->
  compute_speedup baseline optimized = Raise ZeroDivisionError.
Proof.
  intros Hb Ho Hmb Hmo. unfold compute_speedup.
  rewrite (mean_Ok baseline), (mean_Ok optimized) by lia. simpl.
  rewrite py_div_Ok by exact Hmo. simpl.
  rewrite (stdev_Ok baseline Hb), math_sqrt_len. simpl.
  rewrite Hmb, Rmult_0_l, py_div_zero. reflexivity.
Qed.

Lemma compute_speedup_zero_baseline_witness :
  compute_speedup (mkBenchmarkResult "sequential" [0; 0])
    (mkBenchmarkResult "batched" [50; 52]) = Raise ZeroDivisionError.
Proof.
  apply compute_speedup_zero_baseline;
    unfold len, mean_of, sum; simpl; try lia; lra.
Defined.

(** X13: with means that are not zero, a sample of a single measurement on
    either side makes [compute_speedup] raise [StatisticsError]. *)
Theorem compute_speedup_single_measurement
  (baseline optimized : BenchmarkResult) :
  (1 <= len baseline)%nat -> (1 <= len optimized)%nat ->
  mean_of (measurements baseline) <> 0 ->
  mean_of (measurements optimized) <> 0 ->
  (len baseline < 2)%nat \/ (len optimized < 2)%nat ->
  compute_speedup baseline optimized = Raise StatisticsError.
Proof.
  intros Hb Ho Hmb Hmo Hshort. unfold compute_speedup.
  rewrite (mean_Ok baseline), (mean_Ok optimized) by lia. simpl.
  rewrite py_div_Ok by exact Hmo. simpl.
  destruct (Nat.lt_ge_cases (len baseline) 2) as [Hb1 | Hb2].
  - rewrite (stdev_Raise baseline Hb1). reflexivity.
  - rewrite (stdev_Ok baseline Hb2), math_sqrt_len. simpl.
    rewrite py_div_Ok.
    2:{ apply Rmult_integral_contrapositive_currified; [exact Hmb |].
        apply Rgt_not_eq, sqrt_len_pos. lia. }
    simpl. rewrite (stdev_Raise optimized) by lia. reflexivity.
Qed.

Lemma compute_speedup_single_measurement_witness :
  compute_speedup (mkBenchmarkResult "sequential" [100; 102])
    (mkBenchmarkResult "batched" [50]) = Raise StatisticsError.
Proof.
  apply compute_speedup_single_measurement;
    unfold len, mean_of, sum; simpl; try lia; try lra.
Defined.

(** ** When the validity gate gives a verdict *)

Lemma relative_error_nonzero (r : BenchmarkResult) :
  (2 <= len r)%nat -> mean_of (measurements r) <> 0 ->
  relative_error r = Ok (precision_of (measurements r)).
Proof.
  intros Hn Hm. unfold relative_error.
  rewrite (stdev_Ok r Hn), math_sqrt_len, (mean_Ok r) by lia. simpl.
  apply py_div_Ok. apply Rmult_integral_contrapositive_currified.
  - apply Rgt_not_eq, sqrt_len_pos. lia.
  - exact Hm.
Qed.

Lemma relative_error_zero_mean (r : BenchmarkResult) :
  (2 <= len r)%nat -> mean_of (measurements r) = 0 ->
  relative_error r = Raise ZeroDivisionError.
Proof.
  intros Hn Hm. unfold relative_error.
  rewrite (stdev_Ok r Hn), math_sqrt_len, (mean_Ok r) by lia. simpl.
  rewrite Hm, Rmult_0_r. apply py_div_zero.
Qed.

Lemma relative_error_defined (r : BenchmarkResult) (e : R) :
  relative_error r = Ok e ->
  (2 <= len r)%nat /\ mean_of (measurements r) <> 0.
Proof.
  intros H.
  destruct (Nat.lt_ge_cases (len r) 2) as [Hlt | Hge].
  - unfold relative_error in H. rewrite (stdev_Raise r Hlt) in H. discriminate.
  - split; [exact Hge |]. intros Hz.
    rewrite (relative_error_zero_mean r Hge Hz) in H. discriminate.
Qed.

Lemma stability_loop_defined (items : Results) :
  Forall (fun item => (2 <= len (snd item))%nat) items ->
  forall all_valid, exists b, stability_loop items all_valid = Ok b.
Proof.
  induction 1 as [|[n r] items Hn _ IH]; intros all_valid; simpl.
  - eauto.
  - simpl in Hn. rewrite (cv_is_cv_of r Hn). simpl. apply IH.
Qed.

Lemma precision_loop_defined (items : Results) :
  forall all_valid,
    (exists b, precision_loop items all_valid = Ok b)
    <-> Forall (fun item => (2 <= len (snd item))%nat
                            /\ mean_of (measurements (snd item)) <> 0) items.
Proof.
  induction items as [|[n r] items IH]; intros all_valid; simpl.
  - split; [constructor | eauto].
  - split.
    + intros [b H].
      destruct (relative_error r) as [e|e] eqn:E; [| discriminate].
      simpl in H. constructor.
      * simpl. now apply relative_error_defined with e.
      * eapply IH. eauto.
    + intros H. inversion H as [|? ? [Hn Hm] Hrest]; subst. simpl in *.
      rewrite (relative_error_nonzero r Hn Hm). simpl. now apply IH.
Qed.

(** X16: [validate_experiment] returns a verdict exactly when every sample has
    at least two measurements and a mean that is not zero; on any other
    collection it raises. *)
Theorem validate_experiment_defined (results : Results) :
  (exists b, validate_experiment results = Ok b)
  <-> Forall (fun item => (2 <= len (snd item))%nat
                          /\ mean_of (measurements (snd item)) <> 0) results.
Proof.
  unfold validate_experiment. split.
  - intros [b H].
    destruct (stability_loop results true) as [b1|e]; [| discriminate].
    simpl in H. eapply precision_loop_defined. eauto.
  - intros H.
    assert (Hn : Forall (fun item => (2 <= len (snd item))%nat) results).
    { eapply Forall_impl; [| exact H]. intros a [Ha _]. exact Ha. }
    destruct (stability_loop_defined results Hn true) as [b1 E1].
    rewrite E1. simpl. now apply precision_loop_defined.
Qed.

Lemma validate_experiment_defined_witness :
  exists b,
    validate_experiment [("A"%string, mkBenchmarkResult "A" [50; 52])] = Ok b.
Proof.
  apply (proj2 (validate_experiment_defined
                  [("A"%string, mkBenchmarkResult "A" [50; 52])])).
  repeat constructor; unfold len, mean_of, sum; simpl; try lia; lra.
Defined.

Lemma precision_loop_zero_mean (items : Results) :
  Forall (fun item => (2 <= len (snd item))%nat) items ->
  Exists (fun item => mean_of (measurements (snd item)) = 0) items ->
  forall all_valid, precision_loop items all_valid = Raise ZeroDivisionError.
Proof.
  induction 1 as [|[n r] items Hn Hrest IH]; intros Hex all_valid.
  - inversion Hex.
  - simpl in *. destruct (Req_dec (mean_of (measurements r)) 0) as [Hz | Hnz].
    + now rewrite (relative_error_zero_mean r Hn Hz).
    + rewrite (relative_error_nonzero r Hn Hnz). simpl. apply IH.
      inversion Hex; subst; [contradiction | assumption].
Qed.

(** X17: if every sample has at least two measurements and one of them has
    the mean zero, [validate_experiment] raises [ZeroDivisionError]: that
    sample passes the stability test, with [cv = 0], and the precision
    test divides by its mean. *)
Theorem validate_experiment_zero_mean (results : Results) :
  Forall (fun item => (2 <= len (snd item))%nat) results ->
  Exists (fun item => mean_of (measurements (snd item)) = 0) results ->
  validate_experiment results = Raise ZeroDivisionError.
Proof.
  intros Hn Hex. unfold validate_experiment.
  destruct (stability_loop_defined results Hn true) as [b1 E1].
  rewrite E1. simpl. now apply precision_loop_zero_mean.
Qed.

Lemma validate_experiment_zero_mean_witness :
  validate_experiment
    [("A"%string, mkBenchmarkResult "A" [50; 52]);
     ("idle"%string, mkBenchmarkResult "idle" [0; 0])]
  = Raise ZeroDivisionError.
Proof.
  apply validate_experiment_zero_mean.
  - repeat constructor; unfold len; simpl; lia.
  - apply Exists_cons_tl, Exists_cons_hd. unfold mean_of, sum. simpl. lra.
Defined.

Lemma negative_mean_passes (r : BenchmarkResult) :
  (2 <= len r)%nat -> mean_of (measurements r) < 0 ->
  cv_of (measurements r) = 0 /\ precision_of (measurements r) <= 0.
Proof.
  intros Hn Hm. split.
  - unfold cv_of. destruct (Rlt_dec 0 (mean_of (measurements r))); [lra | reflexivity].
  - unfold precision_of.
    pose proof (stdev_of_nonneg (measurements r)) as Hsd.
    pose proof (sqrt_len_pos (len r) ltac:(lia)) as Hsq. unfold len in Hsq.
    set (d := R_sqrt.sqrt (INR (length (measurements r)))
              * mean_of (measurements r)).
    assert (Hd : d < 0) by (unfold d; nra).
    assert (Hi : / d < 0) by now apply Rinv_lt_0_compat.
    unfold Rdiv. nra.
Qed.

(** X18: a collection of samples with at least two measurements and negative
    means always passes the gate: for such a sample [cv] is [0] and the
    relative error has the sign of the mean. *)
Theorem validate_experiment_negative_means (results : Results) :
  Forall (fun item => (2 <= len (snd item))%nat
                      /\ mean_of (measurements (snd item)) < 0) results ->
  validate_experiment results = Ok true.
Proof.
  intros H. unfold validate_experiment.
  assert (Hs : forall a, stability_loop results a = Ok a).
  { induction H as [|[n r] items [Hn Hm] _ IH]; intros a; simpl; [reflexivity |].
    simpl in *. rewrite (cv_is_cv_of r Hn). simpl.
    destruct (negative_mean_passes r Hn Hm) as [-> _].
    replace (Rleb 10 0) with false by (symmetry; apply Rleb_false; lra).
    apply IH. }
  assert (Hp : forall a, precision_loop results a = Ok a).
  { clear Hs. induction H as [|[n r] items [Hn Hm] _ IH]; intros a; simpl;
      [reflexivity |].
    simpl in *. rewrite (relative_error_nonzero r Hn) by lra. simpl.
    destruct (negative_mean_passes r Hn Hm) as [_ Hle].
    replace (Rleb 1 (precision_of (measurements r))) with false
      by (symmetry; apply Rleb_false; lra).
    apply IH. }
  rewrite Hs. simpl. apply Hp.
Qed.

Lemma validate_experiment_negative_means_witness :
  validate_experiment [("drift"%string, mkBenchmarkResult "drift" [-1; -300])]
  = Ok true.
Proof.
  apply validate_experiment_negative_means.
  repeat constructor; unfold len, mean_of, sum; simpl; try lia; lra.
Defined.

(** ** Table and CSV export *)

Lemma confidence_interval_Raise (t_ppf : R -> R -> R) (r : BenchmarkResult)
  (c : R) (e : exn) :
  confidence_interval t_ppf r c = Raise e -> e = StatisticsError.
Proof.
  destruct (Nat.lt_ge_cases (len r) 2) as [Hlt | Hge].
  - unfold confidence_interval.
    destruct (Nat.ltb_spec (len r) 2); [| lia].
    unfold mean, statistics.mean. destruct (measurements r); simpl; congruence.
  - rewrite (confidence_interval_eval t_ppf r c Hge). discriminate.
Qed.

Lemma demo_confidence_interval_Raise (r : BenchmarkResult) (c : R) (e : exn) :
  Demo.confidence_interval r c = Raise e -> e = StatisticsError.
Proof.
  destruct (Nat.lt_ge_cases (len r) 2) as [Hlt | Hge].
  - unfold Demo.confidence_interval.
    destruct (Nat.ltb_spec (len r) 2); [| lia].
    unfold mean, statistics.mean. destruct (measurements r); simpl; congruence.
  - rewrite (demo_confidence_interval_eval r c Hge). discriminate.
Qed.

Section ReportProperties.

Variable ci_method : BenchmarkResult -> R -> result (R * R).

(** The interval the method returns on a sample of two measurements or
    more. *)
Variable ci_of : BenchmarkResult -> R * R.
Hypothesis ci_eval :
  forall r, (2 <= len r)%nat -> ci_method r 0.95 = Ok (ci_of r).
Hypothesis ci_Raise :
  forall r e, ci_method r 0.95 = Raise e -> e = StatisticsError.

Lemma short_sample_stats (r : BenchmarkResult) (A : Type)
  (k : R -> R -> result A) :
  (len r < 2)%nat ->
  (m <- mean r ;; sd <- stdev r ;; k m sd) = Raise StatisticsError.
Proof.
  intros H. destruct (len r) as [|[|n]] eqn:E; try lia.
  - now rewrite (mean_Raise r E).
  - rewrite (mean_Ok r) by lia. simpl. now rewrite (stdev_Raise r) by lia.
Qed.

Lemma table_row_short (key : string) (r : BenchmarkResult) :
  (len r < 2)%nat -> table_row ci_method key r = Raise StatisticsError.
Proof.
  intros H. unfold table_row.
  destruct (ci_method r 0.95) as [i|e] eqn:E; simpl.
  - now apply short_sample_stats.
  - now rewrite (ci_Raise r e E).
Qed.

Lemma csv_row_short (key : string) (r : BenchmarkResult) :
  (len r < 2)%nat -> csv_row ci_method key r = Raise StatisticsError.
Proof.
  intros H. unfold csv_row.
  destruct (ci_method r 0.95) as [i|e] eqn:E; simpl.
  - now apply short_sample_stats.
  - now rewrite (ci_Raise r e E).
Qed.

Lemma table_row_eval (key : string) (r : BenchmarkResult) :
  (2 <= len r)%nat ->
  table_row ci_method key r
  = Ok (Row key (mean_of (measurements r)) (stdev_of (measurements r))
          (fst (ci_of r)) (snd (ci_of r)) (cv_of (measurements r))).
Proof.
  intros H. unfold table_row. rewrite (ci_eval r H). simpl.
  rewrite (mean_Ok r), (stdev_Ok r H), (cv_is_cv_of r H) by lia. reflexivity.
Qed.

Lemma csv_row_eval (key : string) (r : BenchmarkResult) :
  (2 <= len r)%nat ->
  csv_row ci_method key r
  = Ok (CsvRow key (mean_of (measurements r)) (stdev_of (measurements r))
          (fst (ci_of r)) (snd (ci_of r)) (cv_of (measurements r)) (len r)).
Proof.
  intros H. unfold csv_row. rewrite (ci_eval r H). simpl.
  rewrite (mean_Ok r), (stdev_Ok r H), (cv_is_cv_of r H) by lia. reflexivity.
Qed.

Lemma table_loop_rows (items : Results) :
  Forall (fun item => (2 <= len (snd item))%nat) items ->
  forall printed,
    table_loop ci_method items printed
    = (printed ++
       map (fun item =>
              Row (fst item) (mean_of (measurements (snd item)))
                (stdev_of (measurements (snd item)))
                (fst (ci_of (snd item))) (snd (ci_of (snd item)))
                (cv_of (measurements (snd item)))) items,
       Ok tt).
Proof.
  induction 1 as [|[key r] items Hn _ IH]; intros printed; simpl.
  - now rewrite app_nil_r.
  - simpl in Hn. rewrite (table_row_eval key r Hn), IH, <- app_assoc.
    reflexivity.
Qed.

Lemma table_loop_stops (before after : Results) (key : string)
  (r : BenchmarkResult) :
  Forall (fun item => (2 <= len (snd item))%nat) before ->
  (len r < 2)%nat ->
  forall printed,
    table_loop ci_method (before ++ (key, r) :: after) printed
    = (printed ++
       map (fun item =>
              Row (fst item) (mean_of (measurements (snd item)))
                (stdev_of (measurements (snd item)))
                (fst (ci_of (snd item))) (snd (ci_of (snd item)))
                (cv_of (measurements (snd item)))) before,
       Raise StatisticsError).
Proof.
  induction 1 as [|[k0 r0] before Hn _ IH]; intros Hlt printed; simpl.
  - rewrite (table_row_short key r Hlt). now rewrite app_nil_r.
  - simpl in Hn. rewrite (table_row_eval k0 r0 Hn), (IH Hlt), <- app_assoc.
    reflexivity.
Qed.

Lemma csv_loop_all (items : Results) :
  Forall (fun item => (2 <= len (snd item))%nat) items ->
  forall file,
    csv_loop ci_method items file
    = (file ++
       map (fun item =>
              CsvRow (fst item) (mean_of (measurements (snd item)))
                (stdev_of (measurements (snd item)))
                (fst (ci_of (snd item))) (snd (ci_of (snd item)))
                (cv_of (measurements (snd item))) (len (snd item))) items,
       Ok tt).
Proof.
  induction 1 as [|[key r] items Hn _ IH]; intros file; simpl.
  - now rewrite app_nil_r.
  - simpl in Hn. rewrite (csv_row_eval key r Hn), IH, <- app_assoc.
    reflexivity.
Qed.

Lemma csv_loop_stops (before after : Results) (key : string)
  (r : BenchmarkResult) :
  Forall (fun item => (2 <= len (snd item))%nat) before ->
  (len r < 2)%nat ->
  forall file,
    csv_loop ci_method (before ++ (key, r) :: after) file
    = (file ++
       map (fun item =>
              CsvRow (fst item) (mean_of (measurements (snd item)))
                (stdev_of (measurements (snd item)))
                (fst (ci_of (snd item))) (snd (ci_of (snd item)))
                (cv_of (measurements (snd item))) (len (snd item))) before,
       Raise StatisticsError).
Proof.
  induction 1 as [|[k0 r0] before Hn _ IH]; intros Hlt file; simpl.
  - rewrite (csv_row_short key r Hlt). now rewrite app_nil_r.
  - simpl in Hn. rewrite (csv_row_eval k0 r0 Hn), (IH Hlt), <- app_assoc.
    reflexivity.
Qed.

End ReportProperties.

(** X19: on samples with at least two measurements each,
    [print_results_table] prints, after the header and in the order of
    the dict, one row per sample: its key, mean, deviation, the two ends
    of the interval of the script (Student's at 0.95, or the normal one
    in the demo) and its coefficient of variation.  When a sample with
    fewer than two measurements follows, it raises [StatisticsError],
    having printed exactly the rows of the samples before it. *)
Theorem print_results_table_outcome (t_ppf : R -> R -> R) (before : Results) :
  Forall (fun item => (2 <= len (snd item))%nat) before ->
  let row (margin_of : list R -> R) (item : string * BenchmarkResult) :=
    let ms := measurements (snd item) in
    Row (fst item) (mean_of ms) (stdev_of ms)
      (mean_of ms - margin_of ms) (mean_of ms + margin_of ms) (cv_of ms) in
  let student ms :=
    t_ppf ((1 + 0.95) / 2) (INR (length ms) - 1)
    * stdev_of ms / R_sqrt.sqrt (INR (length ms)) in
  let normal ms := 1.96 * stdev_of ms / R_sqrt.sqrt (INR (length ms)) in
  print_results_table t_ppf before
  = (Header :: map (row student) before, Ok tt)
  /\ demo_print_results_table before
     = (Header :: map (row normal) before, Ok tt)
  /\ forall key r after,
       (len r < 2)%nat ->
       print_results_table t_ppf (before ++ (key, r) :: after)
       = (Header :: map (row student) before, Raise StatisticsError)
       /\ demo_print_results_table (before ++ (key, r) :: after)
          = (Header :: map (row normal) before, Raise StatisticsError).
Proof.
  intros H row student normal.
  unfold print_results_table, demo_print_results_table,
    print_results_table_with.
  pose proof (fun r Hr => confidence_interval_eval t_ppf r 0.95 Hr) as Ht.
  pose proof (fun r Hr => demo_confidence_interval_eval r 0.95 Hr) as Hz.
  cbv zeta in Ht, Hz.
  split; [| split].
  - rewrite (table_loop_rows (confidence_interval t_ppf) _ Ht before H).
    reflexivity.
  - rewrite (table_loop_rows Demo.confidence_interval _ Hz before H).
    reflexivity.
  - intros key r after Hr. split.
    + rewrite (table_loop_stops (confidence_interval t_ppf) _ Ht
                 (fun r => confidence_interval_Raise t_ppf r 0.95)
                 before after key r H Hr).
      reflexivity.
    + rewrite (table_loop_stops Demo.confidence_interval _ Hz
                 (fun r => demo_confidence_interval_Raise r 0.95)
                 before after key r H Hr).
      reflexivity.
Qed.

Lemma print_results_table_outcome_witness :
  let before := [("A"%string, mkBenchmarkResult "A" [50; 52])] in
  let row (margin_of : list R -> R) (item : string * BenchmarkResult) :=
    let ms := measurements (snd item) in
    Row (fst item) (mean_of ms) (stdev_of ms)
      (mean_of ms - margin_of ms) (mean_of ms + margin_of ms) (cv_of ms) in
  let student ms :=
    (fun _ _ => 12.706) ((1 + 0.95) / 2) (INR (length ms) - 1)
    * stdev_of ms / R_sqrt.sqrt (INR (length ms)) in
  let normal ms := 1.96 * stdev_of ms / R_sqrt.sqrt (INR (length ms)) in
  print_results_table (fun _ _ => 12.706) before
  = (Header :: map (row student) before, Ok tt)
  /\ demo_print_results_table before
     = (Header :: map (row normal) before, Ok tt)
  /\ forall key r after,
       (len r < 2)%nat ->
       print_results_table (fun _ _ => 12.706) (before ++ (key, r) :: after)
       = (Header :: map (row student) before, Raise StatisticsError)
       /\ demo_print_results_table (before ++ (key, r) :: after)
          = (Header :: map (row normal) before, Raise StatisticsError).
Proof.
  apply (print_results_table_outcome (fun _ _ => 12.706)
           [("A"%string, mkBenchmarkResult "A" [50; 52])]).
  repeat constructor; unfold len; simpl; lia.
Defined.

Lemma csv_loop_rows (t_ppf : R -> R -> R) (items : Results) :
  Forall (fun item => (2 <= len (snd item))%nat) items ->
  forall file,
    csv_loop (confidence_interval t_ppf) items file
    = (file ++
       map (fun item =>
              let ms := measurements (snd item) in
              let margin :=
                t_ppf ((1 + 0.95) / 2) (INR (length ms) - 1)
                * stdev_of ms / R_sqrt.sqrt (INR (length ms)) in
              CsvRow (fst item) (mean_of ms) (stdev_of ms)
                (mean_of ms - margin) (mean_of ms + margin) (cv_of ms)
                (length ms)) items,
       Ok tt).
Proof.
  intros H file.
  pose proof (fun r Hr => confidence_interval_eval t_ppf r 0.95 Hr) as Ht.
  cbv zeta in Ht.
  rewrite (csv_loop_all (confidence_interval t_ppf) _ Ht items H).
  reflexivity.
Qed.

(** X20: on samples with at least two measurements each, [export_to_csv]
    writes the header and then, in the order of the dict, one row per
    sample: its key, mean, deviation, the two ends of the Student
    interval at 0.95, its coefficient of variation and its size. *)
Theorem export_to_csv_rows (t_ppf : R -> R -> R) (results : Results) :
  Forall (fun item => (2 <= len (snd item))%nat) results ->
  export_to_csv t_ppf results
  = (Header ::
     map (fun item =>
            let ms := measurements (snd item) in
            let margin :=
              t_ppf ((1 + 0.95) / 2) (INR (length ms) - 1)
              * stdev_of ms / R_sqrt.sqrt (INR (length ms)) in
            CsvRow (fst item) (mean_of ms) (stdev_of ms)
              (mean_of ms - margin) (mean_of ms + margin) (cv_of ms)
              (length ms)) results,
     Ok tt).
Proof.
  intros H. unfold export_to_csv, export_to_csv_with.
  now rewrite (csv_loop_rows t_ppf results H).
Qed.

Lemma export_to_csv_rows_witness :
  let results :=
    [("A"%string, mkBenchmarkResult "A" [50; 52]);
     ("B"%string, mkBenchmarkResult "B" [100; 100; 103])] in
  export_to_csv (fun _ _ => 4.303) results
  = (Header ::
     map (fun item =>
            let ms := measurements (snd item) in
            let margin :=
              (fun _ _ => 4.303) ((1 + 0.95) / 2) (INR (length ms) - 1)
              * stdev_of ms / R_sqrt.sqrt (INR (length ms)) in
            CsvRow (fst item) (mean_of ms) (stdev_of ms)
              (mean_of ms - margin) (mean_of ms + margin) (cv_of ms)
              (length ms)) results,
     Ok tt).
Proof.
  apply (export_to_csv_rows (fun _ _ => 4.303)
           [("A"%string, mkBenchmarkResult "A" [50; 52]);
            ("B"%string, mkBenchmarkResult "B" [100; 100; 103])]).
  repeat constructor; unfold len; simpl; lia.
Defined.

(** X21: when a sample with fewer than two measurements follows samples
    that have at least two, [export_to_csv] raises [StatisticsError] and
    leaves a file holding the header and exactly the rows of the samples
    before it: the export stops half way, the file is not removed. *)
Theorem export_to_csv_partial (t_ppf : R -> R -> R) (before after : Results)
  (key : string) (r : BenchmarkResult) :
  Forall (fun item => (2 <= len (snd item))%nat) before ->
  (len r < 2)%nat ->
  export_to_csv t_ppf (before ++ (key, r) :: after)
  = (Header ::
     map (fun item =>
            let ms := measurements (snd item) in
            let margin :=
              t_ppf ((1 + 0.95) / 2) (INR (length ms) - 1)
              * stdev_of ms / R_sqrt.sqrt (INR (length ms)) in
            CsvRow (fst item) (mean_of ms) (stdev_of ms)
              (mean_of ms - margin) (mean_of ms + margin) (cv_of ms)
              (length ms)) before,
     Raise StatisticsError).
Proof.
  intros Hb Hr. unfold export_to_csv, export_to_csv_with.
  pose proof (fun r Hr => confidence_interval_eval t_ppf r 0.95 Hr) as Ht.
  cbv zeta in Ht.
  rewrite (csv_loop_stops (confidence_interval t_ppf) _ Ht
             (fun r => confidence_interval_Raise t_ppf r 0.95)
             before after key r Hb Hr).
  reflexivity.
Qed.

Lemma export_to_csv_partial_witness :
  export_to_csv (fun _ _ => 4.303)
    ([("A"%string, mkBenchmarkResult "A" [50; 52])]
     ++ ("B"%string, mkBenchmarkResult "B" [100]) :: [])
  = (Header ::
     map (fun item =>
            let ms := measurements (snd item) in
            let margin :=
              (fun _ _ => 4.303) ((1 + 0.95) / 2) (INR (length ms) - 1)
              * stdev_of ms / R_sqrt.sqrt (INR (length ms)) in
            CsvRow (fst item) (mean_of ms) (stdev_of ms)
              (mean_of ms - margin) (mean_of ms + margin) (cv_of ms)
              (length ms)) [("A"%string, mkBenchmarkResult "A" [50; 52])],
     Raise StatisticsError).
Proof.
  apply (export_to_csv_partial (fun _ _ => 4.303)).
  - repeat constructor; unfold len; simpl; lia.
  - unfold len. simpl. lia.
Defined.

(** ** Filtering a whole collection *)

Lemma remove_all_outliers_eval (results : Results) (threshold : R) :
  Forall (fun item => (2 <= len (snd item))%nat) results ->
  remove_all_outliers results threshold
  = Ok (map (fun item =>
               let ms := measurements (snd item) in
               (fst item,
                mkBenchmarkResult (name (snd item) ++ " (filtered)")
                  (filter (within (mean_of ms) (stdev_of ms) threshold) ms)))
          results).
Proof.
  induction 1 as [|[key r] items Hn _ IH]; simpl; [reflexivity |].
  simpl in Hn. rewrite (remove_outliers_eval r threshold Hn). simpl.
  rewrite IH. reflexivity.
Qed.

(** X22: the filtering loop of [main], on samples with at least two
    measurements each and for any threshold (it uses 3.0): every key
    keeps its place and now maps to the filtered sample, whose name is
    the old one followed by [" (filtered)"] and whose measurements are
    those within [threshold * stdev] of the mean, so that keys and sample
    names no longer agree. *)
Theorem remove_all_outliers_result (results : Results) (threshold : R) :
  Forall (fun item => (2 <= len (snd item))%nat) results ->
  exists results',
    remove_all_outliers results threshold = Ok results'
    /\ results'
       = map (fun item =>
                let ms := measurements (snd item) in
                (fst item,
                 mkBenchmarkResult (name (snd item) ++ " (filtered)")
                   (filter (within (mean_of ms) (stdev_of ms) threshold) ms)))
           results
    /\ map fst results' = map fst results
    /\ length results' = length results.
Proof.
  intros H. eexists. split; [apply (remove_all_outliers_eval results threshold H) |].
  split; [reflexivity |]. split.
  - rewrite map_map. reflexivity.
  - apply length_map.
Qed.

Lemma remove_all_outliers_result_witness :
  let results :=
    [("A"%string, mkBenchmarkResult "A" [50; 52]);
     ("B"%string, mkBenchmarkResult "B" [100; 100; 103])] in
  exists results',
    remove_all_outliers results 3 = Ok results'
    /\ results'
       = map (fun item =>
                let ms := measurements (snd item) in
                (fst item,
                 mkBenchmarkResult (name (snd item) ++ " (filtered)")
                   (filter (within (mean_of ms) (stdev_of ms) 3) ms)))
           results
    /\ map fst results' = map fst results
    /\ length results' = length results.
Proof.
  apply (remove_all_outliers_result
           [("A"%string, mkBenchmarkResult "A" [50; 52]);
            ("B"%string, mkBenchmarkResult "B" [100; 100; 103])] 3).
  repeat constructor; unfold len; simpl; lia.
Defined.

(** ** More on acquisition *)

Section AcquisitionRuns.

Variable float_of_str : str -> option R.
Variable execute : string -> nat -> CompletedProcess.

Lemma parse_output_acc (out : str) (acc l : list R) :
  parse_output float_of_str out [] = Ok l ->
  parse_output float_of_str out acc = Ok (acc ++ l).
Proof.
  unfold parse_output. destruct (marker_line out) as [line|].
  - destruct (nth_error (split line) 1) as [tok|]; [| discriminate].
    destruct (float_of_str tok); [| discriminate].
    intros [= <-]. reflexivity.
  - intros [= <-]. now rewrite app_nil_r.
Qed.

Lemma parse_output_grows (out : str) (acc acc' : list R) :
  parse_output float_of_str out acc = Ok acc' ->
  (length acc' <= S (length acc))%nat /\ ~ malformed float_of_str out.
Proof.
  intros H. split.
  - unfold parse_output in H. destruct (marker_line out) as [line|].
    + destruct (nth_error (split line) 1) as [tok|]; [| discriminate].
      destruct (float_of_str tok); [| discriminate].
      injection H as <-. rewrite length_app. simpl. lia.
    + injection H as <-. lia.
  - intros Hbad.
    destruct (parse_output_malformed float_of_str out acc Hbad) as (e & E & _).
    congruence.
Qed.

Lemma warmup_loop_Ok (path : string) (todo k k' : nat) :
  warmup_loop execute path todo k = Ok k' ->
  k' = (k + todo)%nat
  /\ forall j, (j < todo)%nat -> returncode (execute path (k + j)) = 0%Z.
Proof.
  revert k. induction todo as [|todo IH]; intros k; simpl.
  - intros [= <-]. split; [lia | intros j Hj; lia].
  - destruct (subprocess_run_cases execute path k) as [[Hz E] | [_ E]];
      rewrite E; simpl; [| discriminate].
    intros H. destruct (IH _ H) as [-> Hall]. split; [lia |].
    intros [|j] Hj.
    + now rewrite Nat.add_0_r.
    + replace (k + S j)%nat with (S k + j)%nat by lia. apply Hall. lia.
Qed.

Lemma warmup_loop_zero (path : string) (todo k : nat) :
  (forall j, (j < todo)%nat -> returncode (execute path (k + j)) = 0%Z) ->
  warmup_loop execute path todo k = Ok (k + todo)%nat.
Proof.
  intros H.
  destruct (warmup_loop_cases execute path todo k) as [E | (j & Hj & Hne & _)];
    [exact E | now rewrite H in Hne].
Qed.


Lemma measure_loop_Ok (path : string) (todo : nat) :
  forall k acc ms,
    measure_loop float_of_str execute path todo k acc = Ok ms ->
    (length ms <= length acc + todo)%nat
    /\ forall j, (j < todo)%nat ->
         returncode (execute path (k + j)) = 0%Z
         /\ ~ malformed float_of_str (stdout (execute path (k + j))).
Proof.
  induction todo as [|todo IH]; intros k acc ms; simpl.
  - intros [= <-]. split; [lia | intros j Hj; lia].
  - destruct (subprocess_run_cases execute path k) as [[Hz E] | [_ E]];
      rewrite E; simpl; [| discriminate].
    rewrite scan_lines_parse_output.
    destruct (parse_output float_of_str (stdout (execute path k)) acc)
      as [acc'|e] eqn:Ep; simpl; [| discriminate].
    destruct (parse_output_grows _ _ _ Ep) as [Hlen Hgood].
    intros H. destruct (IH _ _ _ H) as [Hl Hall]. split; [lia |].
    intros [|j] Hj.
    + rewrite Nat.add_0_r. auto.
    + replace (k + S j)%nat with (S k + j)%nat by lia. apply Hall. lia.
Qed.

Lemma measure_loop_values (path : string) (value : nat -> R) (todo : nat) :
  forall k acc,
    (forall j, (j < todo)%nat ->
       returncode (execute path (k + j)) = 0%Z
       /\ parse_output float_of_str (stdout (execute path (k + j))) []
          = Ok [value (k + j)%nat]) ->
    measure_loop float_of_str execute path todo k acc
    = Ok (acc ++ map value (seq k todo)).
Proof.
  induction todo as [|todo IH]; intros k acc H; simpl.
  - now rewrite app_nil_r.
  - destruct (H 0%nat ltac:(lia)) as [Hz Hp]. rewrite Nat.add_0_r in Hz, Hp.
    destruct (subprocess_run_cases execute path k) as [[_ E] | [Hnz _]];
      [| contradiction].
    rewrite E. simpl. rewrite scan_lines_parse_output.
    rewrite (parse_output_acc _ acc _ Hp). simpl.
    rewrite IH.
    + now rewrite <- app_assoc.
    + intros j Hj. replace (S k + j)%nat with (k + S j)%nat by lia.
      apply H. lia.
Qed.


Lemma map_seq_shift (value : nat -> R) (w n b : nat) :
  map (fun k => value (k - w)%nat) (seq (w + b) n) = map value (seq b n).
Proof.
  revert b. induction n as [|n IH]; intros b; simpl; [reflexivity |].
  f_equal; [f_equal; lia |].
  replace (S (w + b)) with (w + S b)%nat by lia. apply IH.
Qed.

(** X23: when every process exits with status 0 and the output of every timed
    invocation yields a measurement, [run_benchmark] returns exactly
    [iterations] measurements, in the order of the invocations; the
    warm-up invocations contribute none. *)
Theorem run_benchmark_complete (binary_path : string) (iterations warmup : Z)
  (value : nat -> R) :
  let w := Z.to_nat warmup in
  let n := Z.to_nat iterations in
  (forall k, (k < w + n)%nat -> returncode (execute binary_path k) = 0%Z) ->
  (forall j, (j < n)%nat ->
     parse_output float_of_str (stdout (execute binary_path (w + j))) []
     = Ok [value j]) ->
  run_benchmark float_of_str execute binary_path iterations warmup
  = Ok (map value (seq 0 n))
  /\ length (map value (seq 0 n)) = n.
Proof.
  intros w n Hz Hp. split; [| now rewrite length_map, length_seq].
  unfold run_benchmark. fold w n.
  rewrite warmup_loop_zero by (intros j Hj; apply Hz; lia). simpl.
  rewrite (measure_loop_values binary_path (fun k => value (k - w)%nat)).
  - simpl. f_equal. rewrite <- (map_seq_shift value w n 0).
    now rewrite Nat.add_0_r.
  - intros j Hj. split; [apply Hz; lia |].
    replace (w + j - w)%nat with j by lia. now apply Hp.
Qed.

(** X24: whenever [run_benchmark] returns, it returns at most [iterations]
    measurements, every process it started, warm-up included, has exited
    with status 0, and no timed output had a marker line without a
    readable number. *)
Theorem run_benchmark_returns (binary_path : string) (iterations warmup : Z)
  (ms : list R) :
  run_benchmark float_of_str execute binary_path iterations warmup = Ok ms ->
  let w := Z.to_nat warmup in
  let n := Z.to_nat iterations in
  (length ms <= n)%nat
  /\ (forall k, (k < w + n)%nat -> returncode (execute binary_path k) = 0%Z)
  /\ (forall j, (j < n)%nat ->
        ~ malformed float_of_str (stdout (execute binary_path (w + j)))).
Proof.
  intros H w n. unfold run_benchmark in H. fold w n in H.
  destruct (warmup_loop execute binary_path w 0) as [k|e] eqn:Ew;
    [| discriminate].
  destruct (warmup_loop_Ok _ _ _ _ Ew) as [-> Hw]. simpl in H, Hw.
  destruct (measure_loop_Ok _ _ _ _ _ H) as [Hl Hall]. simpl in Hl.
  split; [exact Hl |]. split.
  - intros k Hk. destruct (Nat.lt_ge_cases k w) as [Hlt | Hge].
    + now apply Hw.
    + replace k with (w + (k - w))%nat by lia. apply Hall. lia.
  - intros j Hj. now apply Hall.
Qed.


End AcquisitionRuns.

Lemma run_benchmark_complete_witness :
  run_benchmark decimal_float steady_program "./bench" 3 2
  = Ok (map (fun _ => 12 + 5 / 10 ^ 1) (seq 0 (Z.to_nat 3)))
  /\ length (map (fun _ : nat => 12 + 5 / 10 ^ 1) (seq 0 (Z.to_nat 3)))
     = Z.to_nat 3.
Proof.
  apply (run_benchmark_complete decimal_float steady_program "./bench" 3 2
           (fun _ => 12 + 5 / 10 ^ 1)).
  - intros k _. reflexivity.
  - intros j _. reflexivity.
Defined.

Lemma run_benchmark_returns_witness :
  (length [12 + 5 / 10 ^ 1] <= Z.to_nat 1)%nat
  /\ (forall k, (k < Z.to_nat 1 + Z.to_nat 1)%nat ->
        returncode (steady_program "./bench" k) = 0%Z)
  /\ (forall j, (j < Z.to_nat 1)%nat ->
        ~ malformed decimal_float
            (stdout (steady_program "./bench" (Z.to_nat 1 + j)))).
Proof.
  apply (run_benchmark_returns decimal_float steady_program "./bench" 1 1
           [12 + 5 / 10 ^ 1]).
  reflexivity.
Defined.


Section WarmupOutput.

Variable float_of_str : str -> option R.
Variables execute execute' : string -> nat -> CompletedProcess.

Lemma warmup_loop_ext (path : string) (todo : nat) :
  forall k,
    (forall j, (j < todo)%nat ->
       returncode (execute path (k + j)) = returncode (execute' path (k + j))) ->
    warmup_loop execute path todo k = warmup_loop execute' path todo k.
Proof.
  induction todo as [|todo IH]; intros k H; simpl; [reflexivity |].
  pose proof (H 0%nat ltac:(lia)) as H0. rewrite Nat.add_0_r in H0.
  unfold subprocess_run. rewrite <- H0.
  destruct (returncode (execute path k) =? 0)%Z; simpl; [| reflexivity].
  apply IH. intros j Hj. replace (S k + j)%nat with (k + S j)%nat by lia.
  apply H. lia.
Qed.

Lemma measure_loop_ext (path : string) (todo : nat) :
  forall k acc,
    (forall j, (j < todo)%nat -> execute path (k + j) = execute' path (k + j)) ->
    measure_loop float_of_str execute path todo k acc
    = measure_loop float_of_str execute' path todo k acc.
Proof.
  induction todo as [|todo IH]; intros k acc H; simpl; [reflexivity |].
  pose proof (H 0%nat ltac:(lia)) as H0. rewrite Nat.add_0_r in H0.
  unfold subprocess_run. rewrite <- H0.
  destruct (returncode (execute path k) =? 0)%Z; simpl; [| reflexivity].
  destruct (scan_lines float_of_str (splitlines (stdout (execute path k))) acc);
    simpl; [| reflexivity].
  apply IH. intros j Hj. replace (S k + j)%nat with (k + S j)%nat by lia.
  apply H. lia.
Qed.

(** X26: what the warm-up invocations print is never read: two programs with
    the same exit statuses during warm-up and the same behaviour in the
    timed series give the same result, measurements or exception. *)
Theorem run_benchmark_ignores_warmup_output (binary_path : string)
  (iterations warmup : Z) :
  let w := Z.to_nat warmup in
  let n := Z.to_nat iterations in
  (forall k, (k < w)%nat ->
     returncode (execute binary_path k) = returncode (execute' binary_path k)) ->
  (forall j, (j < n)%nat ->
     execute binary_path (w + j) = execute' binary_path (w + j)) ->
  run_benchmark float_of_str execute binary_path iterations warmup
  = run_benchmark float_of_str execute' binary_path iterations warmup.
Proof.
  intros w n Hw Hn. unfold run_benchmark. fold w n.
  rewrite (warmup_loop_ext binary_path w 0) by (intros j Hj; now apply Hw).
  destruct (warmup_loop execute' binary_path w 0) as [k|e] eqn:E; simpl;
    [| reflexivity].
  assert (Hk : k = w).
  { destruct (warmup_loop_cases execute' binary_path w 0)
      as [E' | (j & _ & _ & E')]; rewrite E' in E; [| discriminate].
    injection E as <-. reflexivity. }
  subst k. now apply measure_loop_ext.
Qed.

End WarmupOutput.

Lemma run_benchmark_ignores_warmup_output_witness :
  run_benchmark decimal_float chatty_program "./bench" 2 1
  = run_benchmark decimal_float steady_program "./bench" 2 1.
Proof.
  apply (run_benchmark_ignores_warmup_output decimal_float chatty_program
           steady_program "./bench" 2 1).
  - intros k Hk. destruct k; reflexivity.
  - intros j Hj. reflexivity.
Defined.
